(** * cloud_vm_collector: the acquisition pipeline of the VM recommendation system

    A shallow embedding of [cloud_vm_collector.py]: the vendor classifier
    [_extract_cpu_vendor], the cursor-following fetcher
    [fetch_azure_vm_pricing] and the fallback fetcher [fetch_aws_instances],
    with the properties of the pipeline stated and proved over them.

    Conventions of the embedding.
    - Python text is a [string] of code points U+0000..U+00FF (Latin-1);
      [str.lower] and [repr] are the ones of CPython on that range.
    - The values a parsed JSON body can hold are the type [pyvalue]; a dict
      is its list of items in insertion order.
    - A float is given by the digits and decimal point of its shortest
      decimal form, which is all that [str] and truth testing look at.
    - [session.get] is an oracle: a script lists the outcome of each
      successive call.  Console output and sleeping are left out.
    - [pd.DataFrame] is the one of pandas 2: a column of numbers with a
      float, a None or a missing entry is a column of floats.  The double an
      integer becomes there is a parameter of the tables. *)

From Stdlib Require Import String Ascii ZArith NArith List Bool Lia.
From Stdlib Require Import Decimal DecimalString.
Import ListNotations.

Local Open Scope string_scope.
Local Open Scope Z_scope.

Set Warnings "-register-all".

(* ================================================================= *)
(** ** Text *)

Module Text.

(** [len(s)] as a Python int. *)
Definition len (s : string) : Z := Z.of_nat (String.length s).

(** [needle in haystack] for two strings. *)
Fixpoint contains (needle haystack : string) : bool :=
  String.prefix needle haystack
  || match haystack with
     | EmptyString => false
     | String _ rest => contains needle rest
     end.

(** [s.startswith(p)]. *)
Definition startswith (s p : string) : bool := String.prefix p s.

(** [str.lower] on one code point of U+0000..U+00FF: the ASCII capitals and
    the capitals U+00C0..U+00DE (U+00D7, the multiplication sign, apart)
    move up by 32. *)
Definition lower_char (c : ascii) : ascii :=
  let n := N_of_ascii c in
  if ((65 <=? n) && (n <=? 90)
      || (192 <=? n) && (n <=? 222) && negb (n =? 215))%N
  then ascii_of_N (n + 32)
  else c.

Fixpoint lower (s : string) : string :=
  match s with
  | EmptyString => EmptyString
  | String c rest => String (lower_char c) (lower rest)
  end.

(** [sep.join(parts)]. *)
Fixpoint join (sep : string) (parts : list string) : string :=
  match parts with
  | [] => ""
  | [p] => p
  | p :: rest => p ++ sep ++ join sep rest
  end.

(** [c * n] for a one-character string. *)
Fixpoint replicate (n : nat) (c : ascii) : string :=
  match n with
  | O => ""
  | S k => String c (replicate k c)
  end.

Definition hex_digit (n : N) : ascii :=
  if (n <? 10)%N then ascii_of_N (48 + n) else ascii_of_N (87 + n).

(** Code points of U+0000..U+00FF that [repr] writes as they are. *)
Definition printable (c : ascii) : bool :=
  let n := N_of_ascii c in
  ((32 <=? n) && (n <? 127) || (161 <=? n) && negb (n =? 173))%N.

(** The escape [repr] writes for one character inside the quote [q]. *)
Definition repr_char (q c : ascii) : string :=
  if (Ascii.eqb c q || Ascii.eqb c "\")%bool then String "\" (String c "")
  else if Ascii.eqb c "009" then "\t"
  else if Ascii.eqb c "010" then "\n"
  else if Ascii.eqb c "013" then "\r"
  else if printable c then String c ""
  else let n := N_of_ascii c in
       String "\" (String "x" (String (hex_digit (n / 16)) (String (hex_digit (n mod 16)) ""))).

Fixpoint has_char (c : ascii) (s : string) : bool :=
  match s with
  | EmptyString => false
  | String d rest => Ascii.eqb c d || has_char c rest
  end.

Fixpoint escape (q : ascii) (s : string) : string :=
  match s with
  | EmptyString => ""
  | String c rest => repr_char q c ++ escape q rest
  end.

(** [repr(s)] of a string: single quotes, unless the text has a single quote
    and no double quote. *)
Definition repr (s : string) : string :=
  let q := if (has_char "'" s && negb (has_char "034" s))%bool then "034"%char else "'"%char in
  String q (escape q s ++ String q "").

(** ASCII case folding of one character, and of a text: what "in any letter
    case" means for a pattern of ASCII letters. *)
Definition fold_char (c : ascii) : ascii :=
  let n := N_of_ascii c in
  if ((65 <=? n) && (n <=? 90))%N then ascii_of_N (n + 32) else c.

Fixpoint fold_case (s : string) : string :=
  match s with
  | EmptyString => EmptyString
  | String c rest => String (fold_char c) (fold_case rest)
  end.

(** [all_chars P s]: every character of [s] passes [P]. *)
Fixpoint all_chars (P : ascii -> bool) (s : string) : bool :=
  match s with
  | EmptyString => true
  | String c rest => P c && all_chars P rest
  end.

(** A letter of the ASCII alphabet, in either case. *)
Definition alpha (c : ascii) : bool :=
  let n := N_of_ascii (fold_char c) in ((97 <=? n) && (n <=? 122))%N.

(** The characters the text of a number is written with. *)
Definition numeric (c : ascii) : bool := has_char c "0123456789.e+-infa".

(** Every character is ASCII. *)
Definition ascii_only (s : string) : bool :=
  all_chars (fun c => (N_of_ascii c <? 128)%N) s.

End Text.

(* ================================================================= *)
(** ** Python values *)

Module Py.

(** A float, by its shortest decimal form: [FDec neg ds p] is
    [0.ds * 10^p], negated when [neg]; zero is the digit 0 with [p = 1]. *)
Inductive pyfloat : Type :=
| FNan
| FInf (neg : bool)
| FDec (neg : bool) (digits : Decimal.uint) (point : Z).

(** What [response.json()] can return. *)
Inductive pyvalue : Type :=
| PNone
| PBool (b : bool)
| PInt (n : Z)
| PFloat (f : pyfloat)
| PStr (s : string)
| PList (items : list pyvalue)
| PDict (items : list (string * pyvalue)).

Definition sign (neg : bool) : string := if neg then "-" else "".

(** [repr] of a float ([float_repr_style] short): exponent form when the
    decimal point lies outside (-4, 16]. *)
Definition float_str (f : pyfloat) : string :=
  match f with
  | FNan => "nan"
  | FInf neg => sign neg ++ "inf"
  | FDec neg ds p =>
      let d := NilEmpty.string_of_uint ds in
      let n := Z.of_nat (String.length d) in
      sign neg ++
      if (p <=? -4) || (16 <? p) then
        let e := p - 1 in
        let ex := NilEmpty.string_of_uint (N.to_uint (Z.to_N (Z.abs e))) in
        String.substring 0 1 d
        ++ (if 1 <? n then "." ++ String.substring 1 (String.length d - 1) d else "")
        ++ "e" ++ (if e <? 0 then "-" else "+")
        ++ (if Z.abs e <? 10 then "0" else "") ++ ex
      else if p <=? 0 then "0." ++ Text.replicate (Z.to_nat (- p)) "0" ++ d
      else if n <=? p then d ++ Text.replicate (Z.to_nat (p - n)) "0" ++ ".0"
      else String.substring 0 (Z.to_nat p) d ++ "."
           ++ String.substring (Z.to_nat p) (String.length d - Z.to_nat p) d
  end.

Definition int_str (n : Z) : string := NilZero.string_of_int (Z.to_int n).

(** [repr(v)]. *)
Fixpoint repr (v : pyvalue) : string :=
  match v with
  | PNone => "None"
  | PBool true => "True"
  | PBool false => "False"
  | PInt n => int_str n
  | PFloat f => float_str f
  | PStr s => Text.repr s
  | PList items => "[" ++ Text.join ", " (List.map repr items) ++ "]"
  | PDict items =>
      "{" ++ Text.join ", "
               (List.map (fun kv => Text.repr (fst kv) ++ ": " ++ repr (snd kv)) items)
          ++ "}"
  end.

(** [str(v)]: the text itself for a string, [repr] for the rest. *)
Definition str (v : pyvalue) : string :=
  match v with
  | PStr s => s
  | _ => repr v
  end.

(** Truth value of [v] in [if v], [not v], [a and b]. *)
Definition truthy (v : pyvalue) : bool :=
  match v with
  | PNone => false
  | PBool b => b
  | PInt n => negb (n =? 0)
  | PFloat FNan => true
  | PFloat (FInf _) => true
  | PFloat (FDec _ ds _) =>
      match Decimal.nzhead ds with Decimal.Nil => false | _ => true end
  | PStr s => negb (String.eqb s "")
  | PList items => match items with [] => false | _ => true end
  | PDict items => match items with [] => false | _ => true end
  end.

(** [d.get(key, default)] on the items of a dict. *)
Fixpoint lookup (key : string) (items : list (string * pyvalue)) : option pyvalue :=
  match items with
  | [] => None
  | (k, v) :: rest => if String.eqb k key then Some v else lookup key rest
  end.

Definition dict_get (items : list (string * pyvalue)) (key : string) (default : pyvalue)
  : pyvalue :=
  match lookup key items with
  | Some v => v
  | None => default
  end.

(** [v.get(key, default)]: only a dict has the method; [None] is the
    [AttributeError] of every other value. *)
Definition get (v : pyvalue) (key : string) (default : pyvalue) : option pyvalue :=
  match v with
  | PDict items => Some (dict_get items key default)
  | _ => None
  end.

End Py.

Import Py.

(* ================================================================= *)
(** ** Helper: detect CPU vendor *)

Inductive Vendor : Type := AMD | Intel | ARM | Unknown.

(** The string the classifier returns. *)
Definition vendor_name (v : Vendor) : string :=
  match v with
  | AMD => "AMD"
  | Intel => "Intel"
  | ARM => "ARM"
  | Unknown => "Unknown"
  end.

Definition _extract_cpu_vendor (text : pyvalue) : Vendor :=
  let text := Text.lower (Py.str text) in
  if Text.contains "amd" text then AMD
  else if Text.contains "intel" text then Intel
  else if Text.contains "arm" text || Text.contains "ampere" text then ARM
  else Unknown.

(** [text] holds [pattern] in some letter case. *)
Definition mentions (pattern : string) (text : pyvalue) : Prop :=
  exists pre x post,
    Py.str text = (pre ++ x ++ post)%string /\ Text.fold_case x = pattern.

(* ================================================================= *)
(** ** The HTTP session *)

(** What one [session.get(url, timeout=60)], followed by
    [raise_for_status()] and [json()], comes to: the [Timeout] exception of
    requests, any other exception, or the parsed body.  A session is the list
    of the outcomes of its successive calls, whatever the URL asked. *)
Inductive outcome : Type :=
| Timeout
| Failure
| Body (data : pyvalue).

Definition session : Type := list outcome.

(** Exceptions inside a [try] block: [None] is a raised exception. *)
Notation "x <- e ;; k" :=
  (match e with Some x => k | None => None end)
  (at level 61, e at next level, right associativity).

(** Puts the URL just asked in front of the requests of the rest of a run. *)
Definition requested {A R : Type} (url : R) (run : option (A * list R)) : option (A * list R) :=
  match run with
  | Some (a, urls) => Some (a, url :: urls)
  | None => None
  end.

(** Puts the URLs asked so far in front of the requests of the rest of a run. *)
Definition add_requests {A R : Type} (urls : list R) (run : option (A * list R))
  : option (A * list R) :=
  match run with
  | Some (a, rest) => Some (a, (urls ++ rest)%list)
  | None => None
  end.

(* ================================================================= *)
(** ** Fetch Azure VM retail pricing *)

Module Azure.

Local Open Scope list_scope.

(** One dict appended to [filtered_items], key by key. *)
Record row : Type := {
  VM_Name : string;
  Product_Name : pyvalue;
  Location : pyvalue;
  Unit_Price : pyvalue;
  Currency : pyvalue;
  Meter_Region : pyvalue;
  CPU_Vendor : Vendor;
  Series : string;
  Service_Family : pyvalue;
  Type_ : pyvalue;
  Arm_SKU : string
}.

Definition base_url : string :=
  "https://prices.azure.com/api/retail/prices?$filter=serviceName eq 'Virtual Machines'".

Definition series_filter : list string := ["P"; "T"; "B"; "D"; "H"; "F"]%string.

Definition default_limit : Z := 2000.

Definition len {A : Type} (l : list A) : Z := Z.of_nat (List.length l).

(** The items [for item in items] visits: the elements of a list, the keys
    of a dict, the characters of a text; nothing else can be iterated. *)
Definition iterate (items : pyvalue) : option (list pyvalue) :=
  match items with
  | PList l => Some l
  | PDict kvs => Some (List.map (fun kv => PStr (fst kv)) kvs)
  | PStr s => Some (List.map (fun c => PStr (String c "")) (list_ascii_of_string s))
  | _ => None
  end.

(** The dict built for an accepted item. *)
Definition make_row (sku : string) (item : list (string * pyvalue)) : row :=
  {| VM_Name := sku;
     Product_Name := dict_get item "productName" PNone;
     Location := dict_get item "armRegionName" PNone;
     Unit_Price := dict_get item "unitPrice" PNone;
     Currency := dict_get item "currencyCode" PNone;
     Meter_Region := dict_get item "meterRegion" PNone;
     CPU_Vendor := _extract_cpu_vendor (dict_get item "productName" (PStr ""));
     Series := if 1 <? Text.len sku then String.substring 0 2 sku else sku;
     Service_Family := dict_get item "serviceFamily" PNone;
     Type_ := dict_get item "type" PNone;
     Arm_SKU := sku |}.

(** The [for item in items] loop of one page.  [all_items] is the list the
    [break] test reads; it does not grow inside the loop. *)
Fixpoint scan_items (limit : Z) (all_items : list row) (items : list pyvalue)
    (filtered_items : list row) : option (list row) :=
  match items with
  | [] => Some filtered_items
  | item :: rest =>
      if limit <=? len all_items then Some filtered_items
      else
        match item with
        | PDict fields =>
            let sku := dict_get fields "armSkuName" (PStr "") in
            if truthy sku then
              match sku with
              | PStr s =>
                  if List.existsb (Text.startswith s) series_filter
                  then scan_items limit all_items rest
                         (filtered_items ++ [make_row s fields])
                  else scan_items limit all_items rest filtered_items
              | _ => None
              end
            else scan_items limit all_items rest filtered_items
        | _ => None
        end
  end.

(** The [try] block from [data.get("Items", [])] on: the filtered items of
    the page and its [NextPageLink]. *)
Definition process_page (limit : Z) (all_items : list row) (data : pyvalue)
  : option (list row * pyvalue) :=
  items <- Py.get data "Items" (PList []) ;;
  items <- iterate items ;;
  filtered_items <- scan_items limit all_items items [] ;;
  next_page <- Py.get data "NextPageLink" PNone ;;
  Some (filtered_items, next_page).

(** How one pass through the body of the [while] loop ends. *)
Inductive step : Type :=
| Break (all_items : list row)
| Continue (next_page : pyvalue) (all_items : list row).

Definition iteration (limit : Z) (next_page : pyvalue) (all_items : list row)
    (o : outcome) : step :=
  match o with
  | Timeout => Continue next_page all_items
  | Failure => Break all_items
  | Body data =>
      match process_page limit all_items data with
      | None => Break all_items
      | Some (filtered_items, next) =>
          let all_items := all_items ++ filtered_items in
          if negb (truthy next) || (limit <=? len all_items)
          then Break all_items
          else Continue next all_items
      end
  end.

(** The test of the [while] loop. *)
Definition guard (limit : Z) (next_page : pyvalue) (all_items : list row) : bool :=
  truthy next_page && (len all_items <? limit).

(** The [while] loop, one outcome of the session per pass.  The result is
    [all_items] with the URLs asked, in order; [None] when the session is
    used up while the loop is still running. *)
Fixpoint fetch_loop (limit : Z) (s : session) (next_page : pyvalue)
    (all_items : list row) : option (list row * list pyvalue) :=
  if guard limit next_page all_items then
    match s with
    | [] => None
    | o :: rest =>
        match iteration limit next_page all_items o with
        | Break all_items => Some (all_items, [next_page])
        | Continue next all_items =>
            requested next_page (fetch_loop limit rest next all_items)
        end
    end
  else Some (all_items, []).

(** [fetch_azure_vm_pricing(limit, session)]: the rows of the returned
    DataFrame, one per dict of [all_items]. *)
Definition fetch_azure_vm_pricing (limit : Z) (s : session)
  : option (list row * list pyvalue) :=
  fetch_loop limit s (PStr base_url) [].

(** The run after a page has been processed: [all_items] holds its rows
    and [next] is its [NextPageLink]. *)
Definition after_page (limit : Z) (rest : session) (next : pyvalue)
    (all_items : list row) : option (list row * list pyvalue) :=
  if negb (truthy next) || (limit <=? len all_items)
  then Some (all_items, [])
  else fetch_loop limit rest next all_items.

(** What every row of the result satisfies: both names are the SKU, and
    it is not empty. *)
Definition sku_named (r : row) : Prop :=
  Arm_SKU r = VM_Name r /\ VM_Name r <> ""%string.

(** Both names of the row are the [armSkuName] of an item of a page of the
    session. *)
Definition read_from_item (s : session) (r : row) : Prop :=
  exists page items fields,
    In (Body (PDict page)) s
    /\ iterate (dict_get page "Items" (PList [])) = Some items
    /\ In (PDict fields) items
    /\ dict_get fields "armSkuName" (PStr "") = PStr (VM_Name r)
    /\ dict_get fields "armSkuName" (PStr "") = PStr (Arm_SKU r).

(** The row is of one of the series kept, and its "Series" is the first two
    characters of the SKU (the SKU itself when it has one character). *)
Definition in_series (r : row) : Prop :=
  List.existsb (Text.startswith (VM_Name r)) series_filter = true
  /\ Series r = (if 1 <? Text.len (VM_Name r)
                 then String.substring 0 2 (VM_Name r) else VM_Name r).

(** The loop, started at cursor [np] with [acc] collected, is at cursor
    [np'] with [acc'] collected after the outcomes [os], and still running. *)
Inductive reaches (limit : Z) :
    pyvalue -> list row -> list outcome -> pyvalue -> list row -> Prop :=
| reaches_nil np acc : reaches limit np acc [] np acc
| reaches_cons np acc o np1 acc1 os np2 acc2 :
    guard limit np acc = true ->
    iteration limit np acc o = Continue np1 acc1 ->
    reaches limit np1 acc1 os np2 acc2 ->
    reaches limit np acc (o :: os) np2 acc2.

(** The rows a page yields when nothing cuts the scan short: the accepted
    items, in the order of the page. *)
Fixpoint accepted (items : list pyvalue) : list row :=
  match items with
  | PDict fields :: rest =>
      match dict_get fields "armSkuName" (PStr "") with
      | PStr s =>
          if List.existsb (Text.startswith s) series_filter
          then make_row s fields :: accepted rest
          else accepted rest
      | _ => accepted rest
      end
  | _ :: rest => accepted rest
  | [] => []
  end.

(** The rows collected over a run of outcomes, page after page. *)
Fixpoint collected (os : list outcome) : list row :=
  match os with
  | Body (PDict fields) :: rest =>
      match iterate (dict_get fields "Items" (PList [])) with
      | Some items => accepted items ++ collected rest
      | None => collected rest
      end
  | _ :: rest => collected rest
  | [] => []
  end.

(** The rows of a run, without the requests. *)
Definition rows_of (run : option (list row * list pyvalue)) : option (list row) :=
  option_map fst run.

(** The outcome makes the [try] block raise an exception other than a
    timeout. *)
Definition raises (limit : Z) (all_items : list row) (o : outcome) : Prop :=
  match o with
  | Timeout => False
  | Failure => True
  | Body data => process_page limit all_items data = None
  end.

End Azure.

(* ================================================================= *)
(** ** Fetch AWS EC2 instance data *)

Module Aws.

Local Open Scope list_scope.

(** A column label: a key of the records, or a position when pandas numbers
    the columns itself. *)
Inductive label : Type :=
| Name (s : string)
| Position (i : nat).

Definition label_eqb (a b : label) : bool :=
  match a, b with
  | Name s, Name t => String.eqb s t
  | Position i, Position j => Nat.eqb i j
  | _, _ => false
  end.

(** A pandas DataFrame: [len(df)] and the columns, left to right, each
    with its values from the first row down.  A cell holds the value as the
    type of its column has it (see [recast] below); a NumPy boolean, integer
    or float stands as the Python value of the same text. *)
Record DataFrame : Type := {
  nrows : nat;
  columns : list (label * list pyvalue)
}.

(** [pd.DataFrame()]. *)
Definition empty_frame : DataFrame := {| nrows := 0; columns := [] |}.

Definition NaN : pyvalue := PFloat FNan.

(** [name in df.columns]. *)
Definition has_column (df : DataFrame) (name : label) : bool :=
  List.existsb (fun c => label_eqb (fst c) name) (columns df).

(** [df[name]], the values of the column. *)
Definition column (df : DataFrame) (name : label) : option (list pyvalue) :=
  option_map snd (List.find (fun c => label_eqb (fst c) name) (columns df)).

(** [df[name] = values]: the values of an existing column are replaced
    where it stands; a new column goes last. *)
Definition set_column (df : DataFrame) (name : label) (values : list pyvalue)
  : DataFrame :=
  {| nrows := nrows df;
     columns :=
       if has_column df name
       then List.map (fun c => if label_eqb (fst c) name then (fst c, values) else c)
              (columns df)
       else columns df ++ [(name, values)] |}.

(** [df[name] = value] for one value: every row gets it. *)
Definition set_column_const (df : DataFrame) (name : label) (value : pyvalue)
  : DataFrame :=
  set_column df name (List.repeat value (nrows df)).

(** The keys of the records, each once, in order of first appearance. *)
Definition add_key (seen : list string) (k : string) : list string :=
  if List.existsb (String.eqb k) seen then seen else seen ++ [k].

Definition union_keys (records : list (list (string * pyvalue))) : list string :=
  List.fold_left (fun seen r => List.fold_left add_key (List.map fst r) seen) records [].

(** The dicts of a list, when every element is one. *)
Fixpoint all_dicts (items : list pyvalue) : option (list (list (string * pyvalue))) :=
  match items with
  | [] => Some []
  | PDict fields :: rest => option_map (cons fields) (all_dicts rest)
  | _ :: rest => None
  end.

Definition number_columns (cols : list (list pyvalue)) : list (label * list pyvalue) :=
  List.combine (List.map Position (List.seq 0 (List.length cols))) cols.

(** *** The type pandas gives a column

    pandas 2 looks through the values of a column once
    ([lib.maybe_convert_objects]) and notes what it has seen. *)
Record flags : Type := {
  null_ : bool;     (* None *)
  nan_ : bool;      (* a float NaN, the filler of a missing key among them *)
  bool_ : bool;
  int_ : bool;
  uint_ : bool;     (* an integer above the int64 range, within uint64 *)
  sint_ : bool;     (* a negative integer *)
  float_ : bool;
  object_ : bool    (* a text, a list, a dict, or an integer no column type holds *)
}.

Definition unseen : flags :=
  {| null_ := false; nan_ := false; bool_ := false; int_ := false;
     uint_ := false; sint_ := false; float_ := false; object_ := false |}.

Definition see_null (f : flags) : flags :=
  {| null_ := true; nan_ := nan_ f; bool_ := bool_ f; int_ := int_ f;
     uint_ := uint_ f; sint_ := sint_ f; float_ := float_ f; object_ := object_ f |}.

Definition see_nan (f : flags) : flags :=
  {| null_ := null_ f; nan_ := true; bool_ := bool_ f; int_ := int_ f;
     uint_ := uint_ f; sint_ := sint_ f; float_ := float_ f; object_ := object_ f |}.

Definition see_bool (f : flags) : flags :=
  {| null_ := null_ f; nan_ := nan_ f; bool_ := true; int_ := int_ f;
     uint_ := uint_ f; sint_ := sint_ f; float_ := float_ f; object_ := object_ f |}.

Definition see_float (f : flags) : flags :=
  {| null_ := null_ f; nan_ := nan_ f; bool_ := bool_ f; int_ := int_ f;
     uint_ := uint_ f; sint_ := sint_ f; float_ := true; object_ := object_ f |}.

Definition see_int (f : flags) : flags :=
  {| null_ := null_ f; nan_ := nan_ f; bool_ := bool_ f; int_ := true;
     uint_ := uint_ f; sint_ := sint_ f; float_ := float_ f; object_ := object_ f |}.

Definition see_object (f : flags) : flags :=
  {| null_ := null_ f; nan_ := nan_ f; bool_ := bool_ f; int_ := int_ f;
     uint_ := uint_ f; sint_ := sint_ f; float_ := float_ f; object_ := true |}.

Definition int64_min : Z := - 2 ^ 63.
Definition int64_max : Z := 2 ^ 63 - 1.
Definition uint64_max : Z := 2 ^ 64 - 1.

(** [seen.saw_int(val)]. *)
Definition saw_int (n : Z) (f : flags) : flags :=
  {| null_ := null_ f; nan_ := nan_ f; bool_ := bool_ f; int_ := true;
     uint_ := uint_ f || ((int64_max <? n) && (n <=? uint64_max));
     sint_ := sint_ f || ((int64_min <=? n) && (n <? 0));
     float_ := float_ f; object_ := object_ f |}.

(** The pass over the values.  It stops at the first value that makes the
    column one of objects; the range of an integer is only looked at while
    no None has been met. *)
Fixpoint scan (col : list pyvalue) (f : flags) : flags :=
  match col with
  | [] => f
  | PNone :: rest => scan rest (see_null f)
  | PFloat FNan :: rest => scan rest (see_nan f)
  | PBool _ :: rest => scan rest (see_bool f)
  | PFloat _ :: rest => scan rest (see_float f)
  | PInt n :: rest =>
      if null_ f then scan rest (see_int f)
      else
        let f := saw_int n f in
        if (uint_ f && sint_ f) || (uint64_max <? n) || (n <? int64_min)
        then see_object f
        else scan rest f
  | _ :: _ => see_object f
  end.

Section Constructor.

(** The double an integer becomes in a column of floats (the C conversion:
    the integer itself up to 2^53, the nearest double above; integers are
    taken within the range of a double).  Left open. *)
Variable to_double : Z -> pyfloat.

(** A value as it stands in a column of floats. *)
Definition as_float (v : pyvalue) : pyvalue :=
  match v with
  | PNone => NaN
  | PInt n => PFloat (to_double n)
  | _ => v
  end.

(** The values of a column as pandas keeps them: as they are in a column
    of objects (a text, a list or a dict is there, or booleans), of
    booleans, of integers, or of None alone; as floats, None and the
    missing as NaN, in a column of numbers that has a float, a None or a
    missing entry. *)
Definition recast (col : list pyvalue) : list pyvalue :=
  let f := scan col unseen in
  if object_ f || bool_ f then col
  else if null_ f || nan_ f
  then (if float_ f || int_ f || nan_ f then List.map as_float col else col)
  else if float_ f then List.map as_float col
  else col.

(** [pd.DataFrame(records)] for a list of dicts: one column per key, one
    row per record, NaN where a record lacks the key, each column in the
    type pandas gives it. *)
Definition frame_of_records (records : list (list (string * pyvalue))) : DataFrame :=
  {| nrows := List.length records;
     columns :=
       List.map (fun k => (Name k, recast (List.map (fun r => dict_get r k NaN) records)))
         (union_keys records) |}.

(** What pandas makes of a list whose first element is not a dict (rows
    given as lists, or plain values): the columns it builds, which it
    numbers from 0, or [None] when it raises.  Left open. *)
Variable unlabelled : list pyvalue -> option (list (list pyvalue)).

(** [pd.DataFrame(instances)].  Only a list is a table: a number, a boolean
    or a text raises [ValueError] (a dict never gets here, [fetch_aws_instances]
    has taken its values).  A list that starts with a dict must hold dicts
    only, or reading the keys of the odd element raises. *)
Definition pd_DataFrame (instances : pyvalue) : option DataFrame :=
  match instances with
  | PList (PDict fields :: rest) =>
      records <- all_dicts (PDict fields :: rest) ;;
      Some (frame_of_records records)
  | PList [] => Some empty_frame
  | PList items =>
      cols <- unlabelled items ;;
      Some {| nrows := List.length items; columns := number_columns cols |}
  | _ => None
  end.

(** [df[name].apply(lambda x: _extract_cpu_vendor(x))]. *)
Definition classify (values : list pyvalue) : list pyvalue :=
  List.map (fun x => PStr (vendor_name (_extract_cpu_vendor x))) values.

(** The [if]/[elif]/[else] that fills the "CPU Vendor" column. *)
Definition add_cpu_vendor (df : DataFrame) : DataFrame :=
  match column df (Name "processor") with
  | Some values => set_column df (Name "CPU Vendor") (classify values)
  | None =>
      match column df (Name "Processor") with
      | Some values => set_column df (Name "CPU Vendor") (classify values)
      | None => set_column_const df (Name "CPU Vendor") (PStr "Unknown")
      end
  end.

(** [instances]: the values of a dict, anything else as it is. *)
Definition normalize (data : pyvalue) : pyvalue :=
  match data with
  | PDict items => PList (List.map snd items)
  | _ => data
  end.

(** The body of the [for url in urls] loop: the DataFrame it returns, or
    [None] when it goes on to the next URL ([continue], or an exception). *)
Definition try_url (o : outcome) : option DataFrame :=
  match o with
  | Timeout => None
  | Failure => None
  | Body data =>
      let instances := normalize data in
      if negb (truthy instances) then None
      else
        df <- pd_DataFrame instances ;;
        Some (add_cpu_vendor df)
  end.

Definition urls : list string :=
  ["https://ec2instances.info/instances.json";
   "https://raw.githubusercontent.com/powdahound/ec2instances.info/master/www/instances.json"
  ]%string.

(** The [for] loop over [urls]; after it, [pd.DataFrame()].  The result
    comes with the URLs asked; [None] when the session has fewer outcomes
    than the loop asks for. *)
Fixpoint try_urls (urls : list string) (s : session) : option (DataFrame * list string) :=
  match urls with
  | [] => Some (empty_frame, [])
  | url :: rest =>
      match s with
      | [] => None
      | o :: s' =>
          match try_url o with
          | Some df => Some (df, [url])
          | None => requested url (try_urls rest s')
          end
      end
  end.

Definition fetch_aws_instances (s : session) : option (DataFrame * list string) :=
  try_urls urls s.

End Constructor.

(** The outcome is a failed request, or a body whose normalized sequence
    is empty (more widely: tests false, as an empty list does). *)
Definition fails_or_empty (o : outcome) : Prop :=
  match o with
  | Timeout => True
  | Failure => True
  | Body data => truthy (normalize data) = false
  end.

(** The value of row [i] in the column [name]. *)
Definition cell (df : DataFrame) (name : string) (i : nat) : option pyvalue :=
  match column df (Name name) with
  | Some values => List.nth_error values i
  | None => None
  end.

Definition column_names (df : DataFrame) : list label := List.map fst (columns df).

Section Kept.

Variable to_double : Z -> pyfloat.




End Kept.

(** The record has no field of that name. *)
Definition lacks (k : string) (r : list (string * pyvalue)) : Prop :=
  lookup k r = None.

End Aws.

(* ================================================================= *)
(** ** CoreMark sample data and main *)

Module Report.

Import Aws.
Local Open Scope list_scope.

(** [df.empty]: no row, or no column. *)
Definition empty (df : DataFrame) : bool :=
  Nat.eqb (nrows df) 0 || match columns df with [] => true | _ => false end.

(** The dict [fetch_azure_vm_pricing] appends for a row: its keys in the
    order they are written, each with its value. *)
Definition row_items (r : Azure.row) : list (string * pyvalue) :=
  [("VM Name", PStr (Azure.VM_Name r));
   ("Product Name", Azure.Product_Name r);
   ("Location", Azure.Location r);
   ("Unit Price (USD)", Azure.Unit_Price r);
   ("Currency", Azure.Currency r);
   ("Meter Region", Azure.Meter_Region r);
   ("CPU Vendor", PStr (vendor_name (Azure.CPU_Vendor r)));
   ("Series", PStr (Azure.Series r));
   ("Service Family", Azure.Service_Family r);
   ("Type", Azure.Type_ r);
   ("Arm SKU", PStr (Azure.Arm_SKU r))]%string.

(** The keys of that dict. *)
Definition azure_columns : list string :=
  ["VM Name"; "Product Name"; "Location"; "Unit Price (USD)"; "Currency";
   "Meter Region"; "CPU Vendor"; "Series"; "Service Family"; "Type"; "Arm SKU"]%string.

Definition sample_data : list (string * list pyvalue) :=
  [("CPU",
    [PStr "Intel Xeon Platinum 8490H"; PStr "Intel Xeon Gold 6338";
     PStr "AMD EPYC 7763"; PStr "AMD EPYC 7B13"; PStr "ARM Graviton3"]);
   ("Single-Core Score", [PInt 1980; PInt 1720; PInt 1880; PInt 1820; PInt 1850]);
   ("Multi-Core Score", [PInt 31400; PInt 28400; PInt 40200; PInt 39200; PInt 18500]);
   ("Cores", [PInt 60; PInt 32; PInt 64; PInt 64; PInt 64])]%string.

(** What [main] leaves on disk: the workbook with its sheets, in the order
    they are written, or the CSV files written after the workbook failed.
    What a failed workbook write has left behind is not recorded. *)
Inductive output : Type :=
| Workbook (file : string) (sheets : list (string * DataFrame))
| Backups (files : list (string * DataFrame)).

(** One [if not df.empty: df.to_excel(...)] (or [to_csv]). *)
Definition unless_empty (name : string) (df : DataFrame) : list (string * DataFrame) :=
  if empty df then [] else [(name, df)].

Section Main.

Variable to_double : Z -> pyfloat.

(** [pd.DataFrame(all_items)], the value [fetch_azure_vm_pricing] returns. *)
Definition azure_frame (all_items : list Azure.row) : DataFrame :=
  frame_of_records to_double (List.map row_items all_items).

(** [pd.DataFrame(d)] for a dict of lists of one length: a column per key,
    in the order of the keys, each in the type pandas gives it. *)
Definition frame_of_columns (d : list (string * list pyvalue)) : DataFrame :=
  {| nrows := match d with [] => 0 | (_, values) :: _ => List.length values end;
     columns := List.map (fun c => (Name (fst c), recast to_double (snd c))) d |}.

(** [create_sample_coremark_data()]; [None] would be the [KeyError] of
    [df["CPU"]]. *)
Definition create_sample_coremark_data : option DataFrame :=
  let df := frame_of_columns sample_data in
  values <- column df (Name "CPU") ;;
  Some (set_column df (Name "CPU Vendor") (classify values)).

Variable unlabelled : list pyvalue -> option (list (list pyvalue)).

(** [main()].  The one session serves both fetchers: the fallback fetcher
    meets the outcomes left after the requests of the paginated one.
    [excel_ok] tells whether the [try] block that writes the workbook runs
    to its end; every CSV write is taken to return. *)
Definition main (excel_ok : bool) (s : session) : option output :=
  match Azure.fetch_azure_vm_pricing 2000 s with
  | None => None
  | Some (all_items, asked) =>
      let azure_df := azure_frame all_items in
      match fetch_aws_instances to_double unlabelled (List.skipn (List.length asked) s) with
      | None => None
      | Some (aws_df, _) =>
          coremark_df <- create_sample_coremark_data ;;
          Some (if excel_ok
                then Workbook "cloud_vm_benchmarks.xlsx"
                       (unless_empty "Azure_VMs" azure_df
                        ++ unless_empty "AWS_VMs" aws_df
                        ++ unless_empty "CoreMark_Scores" coremark_df)
                else Backups
                       (unless_empty "azure_vms.csv" azure_df
                        ++ unless_empty "aws_vms.csv" aws_df
                        ++ unless_empty "coremark_scores.csv" coremark_df))
      end
  end.

End Main.

(** The tables of an output, in the order written. *)
Definition tables (o : output) : list DataFrame :=
  match o with
  | Workbook _ sheets => List.map snd sheets
  | Backups files => List.map snd files
  end.

Definition names (o : output) : list string :=
  match o with
  | Workbook _ sheets => List.map fst sheets
  | Backups files => List.map fst files
  end.

End Report.

(* ================================================================= *)
(** ** Notions the properties are stated with *)

(** An item the scan of a page cannot take: not an object, or with an
    [armSkuName] that tests true and is not a text. *)
Definition bad_item (item : pyvalue) : Prop :=
  match item with
  | PDict fields =>
      match dict_get fields "armSkuName" (PStr "") with
      | PStr _ => False
      | sku => truthy sku = true
      end
  | _ => True
  end.

(** A body the paginated fetcher cannot read: not an object, or with
    [Items] that cannot be iterated. *)
Definition unreadable (data : pyvalue) : Prop :=
  match data with
  | PDict fields => Azure.iterate (dict_get fields "Items" (PList [])) = None
  | _ => True
  end.

(** The vendor the fallback fetcher gives a record of a table of records:
    read from "processor" when some record has that key, else from
    "Processor" when some record has it, else Unknown. *)
Definition record_vendor (records : list (list (string * pyvalue)))
    (r : list (string * pyvalue)) : Vendor :=
  if List.existsb (String.eqb "processor") (Aws.union_keys records)
  then _extract_cpu_vendor (dict_get r "processor" Aws.NaN)
  else if List.existsb (String.eqb "Processor") (Aws.union_keys records)
  then _extract_cpu_vendor (dict_get r "Processor" Aws.NaN)
  else Unknown.

(* ================================================================= *)
(** ** Sample pages *)

(** A last page of two accepted items. *)
Definition two_d_series : pyvalue :=
  PDict [("Items",
          PList [PDict [("armSkuName", PStr "D2s_v3"); ("productName", PStr "Dsv3 Series")];
                 PDict [("armSkuName", PStr "D4s_v3"); ("productName", PStr "Dsv3 Series")]])]%string.

(** A first page with a link to the next, and a page whose second item is
    not a record. *)
Definition first_page : pyvalue :=
  PDict [("Items",
          PList [PDict [("armSkuName", PStr "D2s_v3"); ("productName", PStr "Dsv3 AMD Series")];
                 PDict [("armSkuName", PStr "X9_v2")];
                 PDict [("armSkuName", PStr "P3"); ("unitPrice", PInt 4)]]);
         ("NextPageLink", PStr "https://prices.azure.com/api/retail/prices?$skip=100")]%string.

Definition broken_page : pyvalue :=
  PDict [("Items", PList [PDict [("armSkuName", PStr "D8s_v3")]; PInt 7])]%string.

Definition first_page_rows : list Azure.row :=
  [Azure.make_row "D2s_v3" [("armSkuName", PStr "D2s_v3"); ("productName", PStr "Dsv3 AMD Series")];
   Azure.make_row "P3" [("armSkuName", PStr "P3"); ("unitPrice", PInt 4)]]%string.

(** The double of an integer that a double holds exactly (up to 2^53): its
    digits without the zeros at the end, and their number. *)
Definition exact_double (n : Z) : pyfloat :=
  let digits := N.to_uint (Z.to_N (Z.abs n)) in
  FDec (n <? 0)
    (match Decimal.rev (Decimal.nzhead (Decimal.rev digits)) with
     | Decimal.Nil => Decimal.D0 Decimal.Nil
     | d => d
     end)
    (Z.of_nat (Decimal.nb_digits digits)).

(** An instance catalog keyed by instance type, and its records. *)
Definition sample_records : list (list (string * pyvalue)) :=
  [[("instance_type", PStr "a1.medium"); ("vCPU", PInt 1)];
   [("instance_type", PStr "c5.large"); ("processor", PStr "Intel Xeon")]]%string.

Definition sample_catalog : pyvalue :=
  PDict [("a1.medium", PDict [("instance_type", PStr "a1.medium"); ("vCPU", PInt 1)]);
         ("c5.large", PDict [("instance_type", PStr "c5.large"); ("processor", PStr "Intel Xeon")])]%string.

(* ================================================================= *)
(** ** Facts about text *)

Section TextFacts.

Import Text.

Lemma append_nil_r (s : string) : (s ++ "")%string = s.
Proof. induction s as [|c s IH]; simpl; [reflexivity | now rewrite IH]. Qed.

Lemma append_assoc (a b c : string) : ((a ++ b) ++ c)%string = (a ++ (b ++ c))%string.
Proof. induction a as [|x a IH]; simpl; [reflexivity | now rewrite IH]. Qed.

Lemma contains_unfold (p s : string) :
  contains p s =
  String.prefix p s
  || match s with EmptyString => false | String _ rest => contains p rest end.
Proof. destruct s; reflexivity. Qed.

Lemma prefix_append (p post : string) : String.prefix p (p ++ post) = true.
Proof.
  induction p as [|c p IH]; simpl.
  - now destruct post.
  - destruct (ascii_dec c c) as [_|ne]; [exact IH | now destruct ne].
Qed.

Lemma prefix_split (p s : string) :
  String.prefix p s = true -> exists post, s = (p ++ post)%string.
Proof.
  revert s; induction p as [|c p IH]; intros s H.
  - now exists s.
  - destruct s as [|d s]; simpl in H; [discriminate|].
    destruct (ascii_dec c d) as [->|]; [|discriminate].
    destruct (IH _ H) as [post ->]. now exists post.
Qed.

Lemma contains_append (pre p post : string) : contains p (pre ++ p ++ post) = true.
Proof.
  induction pre as [|c pre IH]; simpl.
  - rewrite contains_unfold, prefix_append. reflexivity.
  - rewrite IH. apply orb_true_r.
Qed.

Lemma contains_split (p s : string) :
  contains p s = true -> exists pre post, s = (pre ++ p ++ post)%string.
Proof.
  induction s as [|c s IH]; rewrite contains_unfold; intro H.
  - rewrite orb_false_r in H. destruct (prefix_split _ _ H) as [post E].
    now exists ""%string, post.
  - apply orb_true_iff in H as [H|H].
    + destruct (prefix_split _ _ H) as [post E]. now exists ""%string, post.
    + destruct (IH H) as (pre & post & ->). now exists (String c pre), post.
Qed.

Lemma lower_append (a b : string) : lower (a ++ b) = (lower a ++ lower b)%string.
Proof. induction a as [|c a IH]; simpl; [reflexivity | now rewrite IH]. Qed.

Lemma lower_split (s a b : string) :
  lower s = (a ++ b)%string ->
  exists a' b', s = (a' ++ b')%string /\ lower a' = a /\ lower b' = b.
Proof.
  revert s; induction a as [|c a IH]; intros s H.
  - now exists ""%string, s.
  - destruct s as [|d s]; simpl in H; [discriminate|].
    injection H as Hc Hs. destruct (IH _ Hs) as (a' & b' & -> & <- & <-).
    exists (String d a'), b'. simpl. now rewrite Hc.
Qed.

(** Every character of a needle occurs in the haystack that contains it. *)
Lemma has_char_append (c : ascii) (a b : string) :
  has_char c (a ++ b) = has_char c a || has_char c b.
Proof. induction a as [|x a IH]; simpl; [reflexivity | now rewrite IH, orb_assoc]. Qed.

Lemma contains_has_char (c : ascii) (p s : string) :
  contains p s = true -> has_char c p = true -> has_char c s = true.
Proof.
  intros H Hc. destruct (contains_split _ _ H) as (pre & post & ->).
  rewrite !has_char_append, Hc. now rewrite orb_true_r.
Qed.

Lemma all_chars_append P (a b : string) :
  all_chars P (a ++ b) = all_chars P a && all_chars P b.
Proof. induction a as [|x a IH]; simpl; [reflexivity | now rewrite IH, andb_assoc]. Qed.

Lemma all_chars_substring P (s : string) :
  all_chars P s = true -> forall n m, all_chars P (String.substring n m s) = true.
Proof.
  induction s as [|c s IH]; intros H n m.
  - now destruct n, m.
  - simpl in H. apply andb_true_iff in H as [Hc Hs].
    destruct n as [|n]; [destruct m as [|m]|]; simpl; auto.
    now rewrite Hc, IH.
Qed.

Lemma all_chars_replicate P (c : ascii) (n : nat) :
  P c = true -> all_chars P (replicate n c) = true.
Proof. intro H; induction n as [|n IH]; simpl; [reflexivity | now rewrite H, IH]. Qed.

Lemma all_chars_has_char P (c : ascii) (s : string) :
  all_chars P s = true -> has_char c s = true -> P c = true.
Proof.
  induction s as [|d s IH]; simpl; [discriminate|].
  intros H Hc. apply andb_true_iff in H as [Hd Hs].
  apply orb_true_iff in Hc as [Hc|Hc]; [|now apply IH].
  apply Ascii.eqb_eq in Hc. now subst.
Qed.

Lemma has_char_lower (c : ascii) (s : string) :
  has_char c (lower s) = true ->
  exists d, has_char d s = true /\ lower_char d = c.
Proof.
  induction s as [|x s IH]; simpl; [discriminate|].
  intro H. apply orb_true_iff in H as [H|H].
  - apply Ascii.eqb_eq in H. exists x. now rewrite Ascii.eqb_refl.
  - destruct (IH H) as (d & Hd & E). exists d. now rewrite Hd, orb_true_r.
Qed.

End TextFacts.

(* ================================================================= *)
(** ** The classifier *)

Section Classifier.

Import Text.

Lemma fold_lower_char (c d : ascii) :
  (N_of_ascii d <? 128)%N = true -> fold_char c = d <-> lower_char c = d.
Proof.
  destruct c as [[] [] [] [] [] [] [] []]; intro H; split; intros <-;
    try reflexivity; vm_compute in H; discriminate H.
Qed.

Lemma fold_lower_case (x p : string) :
  ascii_only p = true -> fold_case x = p <-> lower x = p.
Proof.
  revert p; induction x as [|c x IH]; intros p Hp.
  - simpl. tauto.
  - destruct p as [|d p]; simpl; [split; discriminate|].
    unfold ascii_only in Hp; simpl in Hp. apply andb_true_iff in Hp as [Hd Hp].
    specialize (IH p Hp). pose proof (fold_lower_char c d Hd) as Hc.
    split; intro E; injection E as E1 E2; f_equal; tauto.
Qed.

(** On an ASCII pattern, [pattern in str(text).lower()] is: the text holds
    the pattern in some letter case. *)
Lemma mentions_contains (p : string) (v : pyvalue) :
  ascii_only p = true -> mentions p v <-> contains p (lower (Py.str v)) = true.
Proof.
  intro Hp; split.
  - intros (pre & x & post & E & Hx). rewrite E, !lower_append.
    apply (fold_lower_case x p Hp) in Hx. rewrite Hx. apply contains_append.
  - intro H. destruct (contains_split _ _ H) as (pre & post & E).
    destruct (lower_split _ _ _ E) as (a & rest & Ea & _ & E2).
    destruct (lower_split _ _ _ E2) as (x & b & -> & Hx & _).
    exists a, x, b. split; [exact Ea|]. now apply (fold_lower_case x p Hp).
Qed.

Lemma numeric_lower (c : ascii) : numeric c = true -> lower_char c = c.
Proof.
  destruct c as [[] [] [] [] [] [] [] []]; vm_compute; intro H;
    first [reflexivity | discriminate H].
Qed.

(** A pattern with a character no number is written with is in no text made
    of such characters only. *)
Lemma numeric_free (bad : ascii) (p s : string) :
  numeric bad = false -> has_char bad p = true ->
  all_chars numeric s = true -> contains p (lower s) = false.
Proof.
  intros Hbad Hp Hs. destruct (contains p (lower s)) eqn:E; [|reflexivity].
  pose proof (contains_has_char bad _ _ E Hp) as Hl.
  destruct (has_char_lower _ _ Hl) as (d & Hd & El).
  pose proof (all_chars_has_char _ _ _ Hs Hd) as Hn.
  rewrite (numeric_lower _ Hn) in El. subst d. congruence.
Qed.

Lemma numeric_unknown (v : pyvalue) :
  all_chars numeric (Py.str v) = true -> _extract_cpu_vendor v = Unknown.
Proof.
  intro H. unfold _extract_cpu_vendor. cbv zeta.
  rewrite (numeric_free "m" "amd" _ eq_refl eq_refl H).
  rewrite (numeric_free "t" "intel" _ eq_refl eq_refl H).
  rewrite (numeric_free "r" "arm" _ eq_refl eq_refl H).
  rewrite (numeric_free "m" "ampere" _ eq_refl eq_refl H).
  reflexivity.
Qed.

Lemma digits_numeric (d : Decimal.uint) :
  all_chars numeric (NilEmpty.string_of_uint d) = true.
Proof. induction d; simpl; auto. Qed.

Lemma int_str_numeric (n : Z) : all_chars numeric (int_str n) = true.
Proof.
  unfold int_str. destruct (Z.to_int n) as [d|d]; simpl.
  - destruct d; try apply (digits_numeric (_ _)); reflexivity.
  - destruct d; try apply (digits_numeric (_ _)); reflexivity.
Qed.

Lemma float_str_numeric (f : pyfloat) : all_chars numeric (float_str f) = true.
Proof.
  pose proof digits_numeric as Hd.
  assert (Hsub : forall d n m,
             all_chars numeric (String.substring n m (NilEmpty.string_of_uint d)) = true)
    by (intros; apply all_chars_substring, Hd).
  assert (Hz : forall n, all_chars numeric (replicate n "0") = true)
    by (intro; now apply all_chars_replicate).
  destruct f as [|[]|neg ds p]; try reflexivity.
  unfold float_str. rewrite all_chars_append.
  replace (all_chars numeric (sign neg)) with true by now destruct neg.
  simpl andb.
  repeat match goal with
         | |- context [if ?b then _ else _] => destruct b
         end;
    repeat (rewrite ?all_chars_append, ?Hsub, ?Hd, ?Hz; simpl); reflexivity.
Qed.

End Classifier.

(** *** The text form of values, on examples *)

Example str_float_fixed : Py.str (PFloat (FDec false (D1 (D2 (D3 Nil))) 2)) = "12.3".
Proof. reflexivity. Qed.

Example str_float_zero : Py.str (PFloat (FDec true (D0 Nil) 1)) = "-0.0".
Proof. reflexivity. Qed.

Example str_float_small : Py.str (PFloat (FDec false (D1 Nil) (-3))) = "0.0001".
Proof. reflexivity. Qed.

Example str_float_exponent :
  Py.str (PFloat (FDec false (D1 Nil) 17)) = "1e+16"
  /\ Py.str (PFloat (FDec true (D1 (D5 Nil)) (-4))) = "-1.5e-05"
  /\ Py.str (PFloat (FDec false (D1 Nil) 16)) = "1000000000000000.0".
Proof. repeat split. Qed.

Example str_nested :
  Py.str (PList [PStr "AMD"; PInt (-3); PBool true; PDict [("k", PNone)]])
  = "['AMD', -3, True, {'k': None}]".
Proof. reflexivity. Qed.

Example str_escapes :
  Py.str (PList [PStr "it's"; PStr (String "010" "a\")])
  = ("[" ++ String "034" "it's" ++ String "034" ", '\na\\']")%string.
Proof. vm_compute. reflexivity. Qed.

Example lower_latin1 :
  Text.lower (String "201" "COLE") = String "233" "cole"
  /\ Text.lower (String "215" "") = String "215" "".
Proof. split; vm_compute; reflexivity. Qed.

Example classify_coremark :
  List.map _extract_cpu_vendor
    [PStr "Intel Xeon Platinum 8490H"; PStr "Intel Xeon Gold 6338";
     PStr "AMD EPYC 7763"; PStr "AMD EPYC 7B13"; PStr "ARM Graviton3"]
  = [Intel; Intel; AMD; AMD; ARM].
Proof. vm_compute. reflexivity. Qed.

(** C2 fails as stated: a list is not a string, and one that holds the text
    "AMD EPYC 7763" has the text form ['AMD EPYC 7763'], which the classifier
    reads like any other text. *)
Lemma list_holding_amd_is_not_unknown :
  _extract_cpu_vendor (PList [PStr "AMD EPYC 7763"]) <> Unknown.
Proof. vm_compute. discriminate. Qed.

(** C2, amended: None, the booleans and the numbers (integers and floats,
    NaN and the infinities among them) classify as Unknown; every other
    value is classified by its text form [str(v)] alone. *)
Theorem scalars_classify_unknown :
  _extract_cpu_vendor PNone = Unknown
  /\ (forall b, _extract_cpu_vendor (PBool b) = Unknown)
  /\ (forall n, _extract_cpu_vendor (PInt n) = Unknown)
  /\ (forall f, _extract_cpu_vendor (PFloat f) = Unknown)
  /\ (forall v, _extract_cpu_vendor v = _extract_cpu_vendor (PStr (Py.str v))).
Proof.
  repeat split.
  - now intros [|].
  - intro n. apply numeric_unknown, int_str_numeric.
  - intro f. apply numeric_unknown, float_str_numeric.
Qed.

(** C3: a text that holds "amd" in any letter case classifies as AMD,
    whatever else it holds; without "amd", holding "intel" gives Intel;
    without both, holding "arm" or "ampere" gives ARM; with none of the
    four, the result is Unknown. *)
Theorem vendor_precedence (text : pyvalue) :
  (mentions "amd" text -> _extract_cpu_vendor text = AMD)
  /\ (~ mentions "amd" text -> mentions "intel" text ->
      _extract_cpu_vendor text = Intel)
  /\ (~ mentions "amd" text -> ~ mentions "intel" text ->
      mentions "arm" text \/ mentions "ampere" text ->
      _extract_cpu_vendor text = ARM)
  /\ (~ mentions "amd" text -> ~ mentions "intel" text ->
      ~ mentions "arm" text -> ~ mentions "ampere" text ->
      _extract_cpu_vendor text = Unknown).
Proof.
  rewrite (mentions_contains "amd" text eq_refl).
  rewrite (mentions_contains "intel" text eq_refl).
  rewrite (mentions_contains "arm" text eq_refl).
  rewrite (mentions_contains "ampere" text eq_refl).
  unfold _extract_cpu_vendor. cbv zeta.
  destruct (Text.contains "amd" _), (Text.contains "intel" _),
    (Text.contains "arm" _), (Text.contains "ampere" _); simpl;
    repeat split; intros; try reflexivity; try congruence; tauto.
Qed.

Lemma vendor_precedence_witness :
  _extract_cpu_vendor (PStr "Intel-compatible Amd on ARM (Ampere)") = AMD
  /\ _extract_cpu_vendor (PStr "INTEL Xeon with Arm co-processor") = Intel
  /\ _extract_cpu_vendor (PStr "AMPERE Altra") = ARM
  /\ _extract_cpu_vendor (PStr "POWER9") = Unknown.
Proof.
  split; [|split; [|split]].
  - apply (proj1 (vendor_precedence (PStr "Intel-compatible Amd on ARM (Ampere)"))).
    exists "Intel-compatible "%string, "Amd"%string, " on ARM (Ampere)"%string.
    split; reflexivity.
  - apply (proj1 (proj2 (vendor_precedence (PStr "INTEL Xeon with Arm co-processor")))).
    + rewrite (mentions_contains "amd" _ eq_refl). vm_compute. discriminate.
    + exists ""%string, "INTEL"%string, " Xeon with Arm co-processor"%string.
      split; reflexivity.
  - apply (proj1 (proj2 (proj2 (vendor_precedence (PStr "AMPERE Altra"))))).
    + rewrite (mentions_contains "amd" _ eq_refl). vm_compute. discriminate.
    + rewrite (mentions_contains "intel" _ eq_refl). vm_compute. discriminate.
    + right. exists ""%string, "AMPERE"%string, " Altra"%string. split; reflexivity.
  - apply (proj2 (proj2 (proj2 (vendor_precedence (PStr "POWER9"))))).
    + rewrite (mentions_contains "amd" _ eq_refl). vm_compute. discriminate.
    + rewrite (mentions_contains "intel" _ eq_refl). vm_compute. discriminate.
    + rewrite (mentions_contains "arm" _ eq_refl). vm_compute. discriminate.
    + rewrite (mentions_contains "ampere" _ eq_refl). vm_compute. discriminate.
Defined.

(* ================================================================= *)
(** ** The paginated fetcher *)

Section AzureFacts.

Import Azure.
Local Open Scope list_scope.

Lemma requested_add {A R : Type} (url : R) (run : option (A * list R)) :
  requested url run = add_requests [url] run.
Proof. now destruct run as [[a us]|]. Qed.

Lemma add_requests_app {A R : Type} (us vs : list R) (run : option (A * list R)) :
  add_requests us (add_requests vs run) = add_requests (us ++ vs) run.
Proof. destruct run as [[a ws]|]; simpl; [now rewrite app_assoc | reflexivity]. Qed.

Lemma add_requests_nil {A R : Type} (run : option (A * list R)) :
  add_requests [] run = run.
Proof. now destruct run as [[a ws]|]. Qed.

Lemma empty_sku_rejected (s : string) :
  truthy (PStr s) = false -> List.existsb (Text.startswith s) series_filter = false.
Proof.
  simpl. intro H. apply negb_false_iff, String.eqb_eq in H. now subst.
Qed.

Local Opaque series_filter.

(** While the limit test of the scan reads false, the scan of a page is the
    plain filter [accepted]. *)
Lemma scan_items_accepted (limit : Z) (acc : list row) (items : list pyvalue) :
  (limit <=? len acc) = false ->
  forall f0 f, scan_items limit acc items f0 = Some f -> f = f0 ++ accepted items.
Proof.
  intro Hlim. induction items as [|item items IH]; intros f0 f H; simpl in H.
  - injection H as <-. now rewrite app_nil_r.
  - rewrite Hlim in H. destruct item as [| | | | |?|fields]; try discriminate.
    simpl. destruct (truthy (dict_get fields "armSkuName" (PStr ""))) eqn:Ht.
    + destruct (dict_get fields "armSkuName" (PStr "")) as [| | | |s| |];
        try discriminate.
      destruct (existsb (Text.startswith s) series_filter).
      * apply IH in H. now rewrite H, <- app_assoc.
      * now apply IH.
    + apply IH in H. rewrite H. f_equal.
      destruct (dict_get fields "armSkuName" (PStr "")) as [| | | |s| |];
        try reflexivity.
      now rewrite (empty_sku_rejected s Ht).
Qed.

(** *** What holds of every row

    A property of every accepted row is a property of every row of every
    list the loop holds. *)

Section RowInvariant.

Variable P : row -> Prop.

Hypothesis P_make_row :
  forall s fields,
    truthy (PStr s) = true ->
    List.existsb (Text.startswith s) series_filter = true ->
    P (make_row s fields).

Lemma scan_items_all (limit : Z) (acc : list row) (items : list pyvalue) :
  forall f0 f, Forall P f0 ->
    scan_items limit acc items f0 = Some f -> Forall P f.
Proof.
  induction items as [|item items IH]; intros f0 f Hf H; simpl in H.
  - now injection H as <-.
  - destruct (limit <=? len acc); [now injection H as <-|].
    destruct item as [| | | | |?|fields]; try discriminate.
    destruct (truthy (dict_get fields "armSkuName" (PStr ""))) eqn:Ht;
      [|now apply (IH f0)].
    destruct (dict_get fields "armSkuName" (PStr "")) as [| | | |s| |];
      try discriminate.
    destruct (existsb (Text.startswith s) series_filter) eqn:Hs;
      [|now apply (IH f0)].
    refine (IH _ _ _ H). apply Forall_app. split; [exact Hf|].
    constructor; [exact (P_make_row s fields Ht Hs) | constructor].
Qed.

Lemma process_page_all limit acc data filtered next :
  process_page limit acc data = Some (filtered, next) -> Forall P filtered.
Proof.
  unfold process_page. intro H.
  destruct (Py.get data "Items" (PList [])) as [items|]; [|discriminate].
  destruct (iterate items) as [its|]; [|discriminate].
  destruct (scan_items limit acc its []) as [f|] eqn:Hs; [|discriminate].
  destruct (Py.get data "NextPageLink" PNone); [|discriminate].
  injection H as <- _. exact (scan_items_all _ _ _ _ _ (Forall_nil _) Hs).
Qed.

Lemma iteration_all limit np acc o :
  Forall P acc ->
  match iteration limit np acc o with
  | Break rows => Forall P rows
  | Continue _ rows => Forall P rows
  end.
Proof.
  intro Hacc. destruct o as [| |data]; simpl; auto.
  destruct (process_page limit acc data) as [[filtered next]|] eqn:Hp; auto.
  apply process_page_all in Hp.
  assert (Forall P (acc ++ filtered)) by (apply Forall_app; auto).
  now destruct (negb (truthy next) || (limit <=? len (acc ++ filtered))).
Qed.

Lemma fetch_loop_all limit s :
  forall np acc rows reqs, Forall P acc ->
    fetch_loop limit s np acc = Some (rows, reqs) -> Forall P rows.
Proof.
  induction s as [|o s IH]; intros np acc rows reqs Hacc H; simpl in H.
  - destruct (guard limit np acc); [discriminate | now injection H as <- _].
  - destruct (guard limit np acc); [|now injection H as <- _].
    pose proof (iteration_all limit np acc o Hacc) as Hi.
    destruct (iteration limit np acc o) as [all|next all].
    + now injection H as <- _.
    + destruct (fetch_loop limit s next all) as [[r q]|] eqn:Hl; [|discriminate].
      injection H as <- _. exact (IH _ _ _ _ Hi Hl).
Qed.

End RowInvariant.

Lemma make_row_sku_named (s : string) (fields : list (string * pyvalue)) :
  truthy (PStr s) = true -> sku_named (make_row s fields).
Proof.
  intro H. split; [reflexivity|]. simpl. intros ->. discriminate H.
Qed.

Lemma collected_cons (o : outcome) (os : list outcome) :
  collected (o :: os) = collected [o] ++ collected os.
Proof.
  destruct o as [| |[| | | | | |fields]]; simpl; try reflexivity.
  destruct (iterate (dict_get fields "Items" (PList []))); simpl;
    [now rewrite app_nil_r | reflexivity].
Qed.

Lemma guard_limit limit np acc :
  guard limit np acc = true -> (limit <=? len acc) = false.
Proof.
  unfold guard. intro H. apply andb_true_iff in H as [_ H].
  apply Z.ltb_lt in H. now apply Z.leb_gt.
Qed.

(** A pass that goes on has added the accepted items of its page, and
    leaves the loop test true. *)
Lemma iteration_continue limit np acc o np1 acc1 :
  guard limit np acc = true ->
  iteration limit np acc o = Continue np1 acc1 ->
  acc1 = acc ++ collected [o] /\ guard limit np1 acc1 = true.
Proof.
  intros Hg H. destruct o as [| |data]; simpl in H.
  - injection H as <- <-. simpl. now rewrite app_nil_r.
  - discriminate.
  - destruct (process_page limit acc data) as [[filtered next]|] eqn:Hp;
      [|discriminate].
    destruct (negb (truthy next) || (limit <=? len (acc ++ filtered))) eqn:Hb;
      [discriminate|].
    injection H as <- <-. apply orb_false_iff in Hb as [Ht Hl].
    split.
    + f_equal. unfold process_page in Hp.
      destruct data as [| | | | | |fields]; try discriminate. simpl in Hp |- *.
      destruct (iterate (dict_get fields "Items" (PList []))) as [its|];
        [|discriminate].
      destruct (scan_items limit acc its []) as [f|] eqn:Hs; [|discriminate].
      injection Hp as <- _. rewrite app_nil_r.
      exact (scan_items_accepted _ _ _ (guard_limit _ _ _ Hg) _ _ Hs).
    + unfold guard. apply negb_false_iff in Ht. rewrite Ht. simpl.
      apply Z.leb_gt in Hl. now apply Z.ltb_lt.
Qed.

Lemma reaches_collected limit np0 acc0 pre np acc :
  reaches limit np0 acc0 pre np acc -> acc = acc0 ++ collected pre.
Proof.
  induction 1 as [np acc|np acc o np1 acc1 os np2 acc2 Hg Hi _ IH].
  - simpl. now rewrite app_nil_r.
  - destruct (iteration_continue _ _ _ _ _ _ Hg Hi) as [E _].
    rewrite collected_cons, app_assoc, <- E. exact IH.
Qed.

Lemma reaches_app limit np0 acc0 os1 np1 acc1 os2 np2 acc2 :
  reaches limit np0 acc0 os1 np1 acc1 ->
  reaches limit np1 acc1 os2 np2 acc2 ->
  reaches limit np0 acc0 (os1 ++ os2) np2 acc2.
Proof.
  induction 1 as [|np acc o npa acca os npb accb Hg Hi _ IH]; intro H2.
  - exact H2.
  - simpl. exact (reaches_cons _ _ _ _ _ _ _ _ _ Hg Hi (IH H2)).
Qed.

Lemma reaches_timeouts limit np acc (n : nat) :
  guard limit np acc = true ->
  reaches limit np acc (repeat Timeout n) np acc.
Proof.
  intro Hg. induction n as [|n IH]; simpl.
  - apply reaches_nil.
  - exact (reaches_cons limit np acc Timeout np acc _ np acc Hg eq_refl IH).
Qed.

(** The loop run over [pre ++ s] is the loop run over [s] from where [pre]
    leaves it, one request per outcome of [pre] made before. *)
Lemma reaches_fetch_loop limit np0 acc0 pre np acc :
  reaches limit np0 acc0 pre np acc ->
  exists reqs, List.length reqs = List.length pre /\
    forall s, fetch_loop limit (pre ++ s) np0 acc0
              = add_requests reqs (fetch_loop limit s np acc).
Proof.
  induction 1 as [np acc|np acc o np1 acc1 os np2 acc2 Hg Hi _ (reqs & Hlen & IH)].
  - exists []. split; [reflexivity|]. intro s. now rewrite add_requests_nil.
  - exists (np :: reqs). split; [simpl; now rewrite Hlen|].
    intro s. simpl. rewrite Hg, Hi, IH, requested_add, add_requests_app.
    reflexivity.
Qed.

(** The loop run over timeouts first asks the same cursor once per timeout,
    and goes on as if they had not been. *)
Lemma fetch_loop_timeouts limit np acc (n : nat) (s : session) :
  guard limit np acc = true ->
  fetch_loop limit (repeat Timeout n ++ s) np acc
  = add_requests (repeat np n) (fetch_loop limit s np acc).
Proof.
  intro Hg. induction n as [|n IH]; simpl.
  - now rewrite add_requests_nil.
  - rewrite Hg, IH, requested_add, add_requests_app. reflexivity.
Qed.

Lemma fetch_loop_page limit np acc data filtered next (rest : session) :
  guard limit np acc = true ->
  process_page limit acc data = Some (filtered, next) ->
  fetch_loop limit (Body data :: rest) np acc
  = add_requests [np] (after_page limit rest next (acc ++ filtered)).
Proof.
  intros Hg Hp. simpl. rewrite Hg, Hp. unfold after_page.
  destruct (negb (truthy next) || (limit <=? len (acc ++ filtered))).
  - reflexivity.
  - apply requested_add.
Qed.

Lemma fetch_loop_raises limit np acc o (rest : session) :
  guard limit np acc = true -> raises limit acc o ->
  fetch_loop limit (o :: rest) np acc = Some (acc, [np]).
Proof.
  intros Hg Hr. simpl. rewrite Hg. destruct o as [| |data]; simpl in *.
  - contradiction.
  - reflexivity.
  - now rewrite Hr.
Qed.

(** The rows held only grow: a pass, and so a run, appends to them. *)
Lemma iteration_extends limit np acc o :
  exists more,
    match iteration limit np acc o with
    | Break rows => rows = acc ++ more
    | Continue _ rows => rows = acc ++ more
    end.
Proof.
  destruct o as [| |data]; simpl; try (exists []; now rewrite app_nil_r).
  destruct (process_page limit acc data) as [[filtered next]|];
    [|exists []; now rewrite app_nil_r].
  exists filtered.
  now destruct (negb (truthy next) || (limit <=? len (acc ++ filtered))).
Qed.

Lemma fetch_loop_extends limit (s : session) :
  forall np acc rows reqs,
    fetch_loop limit s np acc = Some (rows, reqs) -> exists later, rows = acc ++ later.
Proof.
  induction s as [|o s IH]; intros np acc rows reqs H; simpl in H.
  - destruct (guard limit np acc); [discriminate|].
    injection H as <- _. exists []. now rewrite app_nil_r.
  - destruct (guard limit np acc);
      [|injection H as <- _; exists []; now rewrite app_nil_r].
    destruct (iteration_extends limit np acc o) as [more Hm].
    destruct (iteration limit np acc o) as [all|next all].
    + injection H as <- _. now exists more.
    + destruct (fetch_loop limit s next all) as [[r q]|] eqn:Hl; [|discriminate].
      injection H as <- _. destruct (IH _ _ _ _ Hl) as [later ->].
      exists (more ++ later). now rewrite Hm, app_assoc.
Qed.

Lemma after_page_extends limit (s : session) next acc rows reqs :
  after_page limit s next acc = Some (rows, reqs) -> exists later, rows = acc ++ later.
Proof.
  unfold after_page.
  destruct (negb (truthy next) || (limit <=? len acc)).
  - intro H. injection H as <- _. exists []. now rewrite app_nil_r.
  - apply fetch_loop_extends.
Qed.

Local Transparent series_filter.

(** C1 fails on the code: with limit 1, a single page holding two accepted
    items yields two rows.  The test [len(all_items) >= limit] inside the
    scan of a page reads the list that only grows after the scan. *)
Example limit_overrun_within_page :
  rows_of (fetch_azure_vm_pricing 1 [Body two_d_series])
  = Some [make_row "D2s_v3" [("armSkuName", PStr "D2s_v3"); ("productName", PStr "Dsv3 Series")];
          make_row "D4s_v3" [("armSkuName", PStr "D4s_v3"); ("productName", PStr "Dsv3 Series")]]%string.
Proof. vm_compute. reflexivity. Qed.

(** C8: with limit 0 the fetcher returns no row and asks no URL, whatever
    the session would answer. *)
Theorem zero_limit_asks_nothing (s : session) :
  fetch_azure_vm_pricing 0 s = Some ([], []).
Proof. destruct s; reflexivity. Qed.

Lemma rows_sku_named (limit : Z) (s : session) rows reqs :
  fetch_azure_vm_pricing limit s = Some (rows, reqs) ->
  Forall sku_named rows.
Proof.
  intro H. refine (fetch_loop_all sku_named _ limit s _ _ _ _ (Forall_nil _) H).
  intros sku fields Ht _. exact (make_row_sku_named sku fields Ht).
Qed.

(** Every row the fetcher returns is of one of the series kept (its SKU
    starts with P, T, B, D, H or F), and its "Series" is the first two
    characters of the SKU, or the SKU itself when it is one character. *)
Theorem rows_in_series (limit : Z) (s : session) rows reqs :
  fetch_azure_vm_pricing limit s = Some (rows, reqs) ->
  Forall in_series rows.
Proof.
  intro H. refine (fetch_loop_all in_series _ limit s _ _ _ _ (Forall_nil _) H).
  intros sku fields _ Hs. split; [exact Hs | reflexivity].
Qed.

Lemma rows_in_series_witness : Forall in_series first_page_rows.
Proof.
  apply (rows_in_series 10 [Body first_page; Failure] _
           [PStr base_url; PStr "https://prices.azure.com/api/retail/prices?$skip=100"]).
  vm_compute. reflexivity.
Defined.

(** From a loop head where the test holds, the rows returned are rows held
    at a loop head, fewer than the limit, followed by the accepted items of
    at most one page. *)
Lemma fetch_loop_last_page limit (s : session) :
  forall np acc rows reqs,
    guard limit np acc = true ->
    fetch_loop limit s np acc = Some (rows, reqs) ->
    exists before last,
      rows = before ++ last /\ len before < limit
      /\ (last = [] \/ exists o, In o s /\ last = collected [o]).
Proof.
  induction s as [|o s IH]; intros np acc rows reqs Hg H; simpl in H; rewrite Hg in H.
  - discriminate.
  - pose proof Hg as Hlt. unfold guard in Hlt. apply andb_true_iff in Hlt as [_ Hlt].
    apply Z.ltb_lt in Hlt.
    destruct (iteration limit np acc o) as [all|next all] eqn:Hi.
    + injection H as <- _. destruct o as [| |data]; simpl in Hi.
      * discriminate.
      * injection Hi as <-. exists acc, []. rewrite app_nil_r. auto.
      * destruct (process_page limit acc data) as [[filtered nx]|] eqn:Hp.
        -- destruct (negb (truthy nx) || (limit <=? len (acc ++ filtered))) eqn:Hb;
             [|discriminate].
           injection Hi as <-. exists acc, filtered. split; [reflexivity|].
           split; [exact Hlt|]. right. exists (Body data). split; [now left|].
           unfold process_page in Hp.
           destruct data as [| | | | | |fields]; try discriminate. simpl in Hp |- *.
           destruct (iterate (dict_get fields "Items" (PList []))) as [its|];
             [|discriminate].
           destruct (scan_items limit acc its []) as [f|] eqn:Hs; [|discriminate].
           injection Hp as <- _. rewrite app_nil_r.
           exact (scan_items_accepted _ _ _ (guard_limit _ _ _ Hg) _ _ Hs).
        -- injection Hi as <-. exists acc, []. rewrite app_nil_r. auto.
    + destruct (iteration_continue _ _ _ _ _ _ Hg Hi) as [_ Hg'].
      destruct (fetch_loop limit s next all) as [[r q]|] eqn:Hl; [|discriminate].
      injection H as <- _.
      destruct (IH _ _ _ _ Hg' Hl) as (before & last & E & Hb & Hlast).
      exists before, last. split; [exact E|]. split; [exact Hb|].
      destruct Hlast as [->|(o' & Ho' & ->)]; [now left|].
      right. exists o'. split; [now right | reflexivity].
Qed.

(** How far the result can pass the limit: the rows returned are none, or
    rows held at the head of the loop, fewer than the limit, followed by the
    accepted items of at most one page of the session. *)
Theorem overrun_within_one_page (limit : Z) (s : session) rows reqs :
  fetch_azure_vm_pricing limit s = Some (rows, reqs) ->
  rows = []
  \/ exists before last,
       rows = before ++ last /\ len before < limit
       /\ (last = [] \/ exists o, In o s /\ last = collected [o]).
Proof.
  unfold fetch_azure_vm_pricing. intro H.
  destruct (guard limit (PStr base_url) []) eqn:Hg.
  - right. exact (fetch_loop_last_page _ _ _ _ _ _ Hg H).
  - left. destruct s; simpl in H; rewrite Hg in H; now injection H as <- _.
Qed.

Lemma overrun_within_one_page_witness :
  first_page_rows = []
  \/ exists before last,
       first_page_rows = before ++ last /\ len before < 1
       /\ (last = [] \/ exists o, In o [Body first_page] /\ last = collected [o]).
Proof.
  apply (overrun_within_one_page 1 [Body first_page] first_page_rows [PStr base_url]).
  vm_compute. reflexivity.
Defined.

(** C4: when the loop has run through the outcomes [pre] and the next
    outcome raises an exception other than a timeout, the fetcher returns
    the rows collected from [pre], no more and no less, and asks nothing
    after the request that failed. *)
Theorem error_returns_collected limit pre o rest np acc :
  reaches limit (PStr base_url) [] pre np acc ->
  guard limit np acc = true ->
  raises limit acc o ->
  acc = collected pre
  /\ exists reqs, List.length reqs = List.length pre
      /\ fetch_azure_vm_pricing limit (pre ++ o :: rest) = Some (acc, reqs ++ [np]).
Proof.
  intros Hr Hg Ho. split; [exact (reaches_collected _ _ _ _ _ _ Hr)|].
  destruct (reaches_fetch_loop _ _ _ _ _ _ Hr) as (reqs & Hlen & E).
  exists reqs. split; [exact Hlen|].
  unfold fetch_azure_vm_pricing. rewrite E, (fetch_loop_raises _ _ _ _ rest Hg Ho).
  reflexivity.
Qed.

(** C5: when the loop stands at cursor [np] and the session times out [n]
    times before it answers with a page, the timeouts leave the cursor and
    the rows held as they were, every one of the [n + 1] requests asks [np],
    and the run goes on from the page's next link with the rows of the page
    appended once: the rows returned are those of the run without the
    timeouts, and start with the rows held before followed by the page's. *)
Theorem timeouts_retry_same_cursor limit pre np acc (n : nat) data filtered next rest :
  reaches limit (PStr base_url) [] pre np acc ->
  guard limit np acc = true ->
  process_page limit acc data = Some (filtered, next) ->
  let timed_out := pre ++ repeat Timeout n ++ Body data :: rest in
  reaches limit (PStr base_url) [] (pre ++ repeat Timeout n) np acc
  /\ (exists reqs, List.length reqs = List.length pre
       /\ fetch_azure_vm_pricing limit timed_out
          = add_requests (reqs ++ repeat np (S n))
              (after_page limit rest next (acc ++ filtered)))
  /\ rows_of (fetch_azure_vm_pricing limit timed_out)
     = rows_of (fetch_azure_vm_pricing limit (pre ++ Body data :: rest))
  /\ (forall rows, rows_of (fetch_azure_vm_pricing limit timed_out) = Some rows ->
       exists later, rows = collected pre ++ filtered ++ later).
Proof.
  intros Hr Hg Hp timed_out. subst timed_out.
  destruct (reaches_fetch_loop _ _ _ _ _ _ Hr) as (reqs & Hlen & E).
  assert (Hrun : fetch_azure_vm_pricing limit (pre ++ repeat Timeout n ++ Body data :: rest)
                 = add_requests (reqs ++ repeat np (S n))
                     (after_page limit rest next (acc ++ filtered))).
  { unfold fetch_azure_vm_pricing.
    rewrite E, (fetch_loop_timeouts _ _ _ _ _ Hg), (fetch_loop_page _ _ _ _ _ _ rest Hg Hp).
    rewrite !add_requests_app, <- app_assoc, <- repeat_cons. reflexivity. }
  split; [|split; [|split]].
  - exact (reaches_app _ _ _ _ _ _ _ _ _ Hr (reaches_timeouts _ _ _ n Hg)).
  - exists reqs. split; [exact Hlen | exact Hrun].
  - rewrite Hrun. unfold fetch_azure_vm_pricing.
    rewrite E, (fetch_loop_page _ _ _ _ _ _ rest Hg Hp), add_requests_app.
    unfold rows_of. now destruct (after_page limit rest next (acc ++ filtered)) as [[r q]|].
  - intros rows Hrows. rewrite Hrun in Hrows. unfold rows_of in Hrows.
    destruct (after_page limit rest next (acc ++ filtered)) as [[r q]|] eqn:Ha;
      [|discriminate].
    simpl in Hrows. injection Hrows as <-.
    destruct (after_page_extends _ _ _ _ _ _ Ha) as [later ->].
    exists later. rewrite (reaches_collected _ _ _ _ _ _ Hr). simpl.
    now rewrite app_assoc.
Qed.

End AzureFacts.

Lemma first_page_reached :
  Azure.reaches 10 (PStr Azure.base_url) [] [Body first_page]
    (PStr "https://prices.azure.com/api/retail/prices?$skip=100") first_page_rows.
Proof.
  apply Azure.reaches_cons
    with (np1 := PStr "https://prices.azure.com/api/retail/prices?$skip=100")
         (acc1 := first_page_rows).
  - reflexivity.
  - vm_compute. reflexivity.
  - apply Azure.reaches_nil.
Qed.

Lemma error_returns_collected_witness :
  first_page_rows = Azure.collected [Body first_page]
  /\ exists reqs, List.length reqs = 1%nat
      /\ Azure.fetch_azure_vm_pricing 10 [Body first_page; Body broken_page; Body two_d_series]
         = Some (first_page_rows,
                 (reqs ++ [PStr "https://prices.azure.com/api/retail/prices?$skip=100"])%list).
Proof.
  apply (error_returns_collected 10 [Body first_page] (Body broken_page) [Body two_d_series]
           (PStr "https://prices.azure.com/api/retail/prices?$skip=100") first_page_rows).
  - exact first_page_reached.
  - reflexivity.
  - vm_compute. reflexivity.
Defined.

Lemma timeouts_retry_same_cursor_witness :
  Azure.rows_of (Azure.fetch_azure_vm_pricing 10
                   [Body first_page; Timeout; Timeout; Body two_d_series])
  = Azure.rows_of (Azure.fetch_azure_vm_pricing 10 [Body first_page; Body two_d_series]).
Proof.
  refine (proj1 (proj2 (proj2
    (timeouts_retry_same_cursor 10 [Body first_page]
       (PStr "https://prices.azure.com/api/retail/prices?$skip=100") first_page_rows
       2 two_d_series
       [Azure.make_row "D2s_v3" [("armSkuName", PStr "D2s_v3"); ("productName", PStr "Dsv3 Series")];
        Azure.make_row "D4s_v3" [("armSkuName", PStr "D4s_v3"); ("productName", PStr "Dsv3 Series")]]%string
       PNone [] first_page_reached _ _)))).
  - reflexivity.
  - vm_compute. reflexivity.
Defined.

(* ================================================================= *)
(** ** The fallback fetcher *)

Section AwsFacts.

Import Aws.
Local Open Scope list_scope.

Variable to_double : Z -> pyfloat.
Variable unlabelled : list pyvalue -> option (list (list pyvalue)).

Lemma try_url_keyed (items : list (string * pyvalue)) :
  try_url to_double unlabelled (Body (PDict items))
  = try_url to_double unlabelled (Body (PList (List.map snd items))).
Proof. reflexivity. Qed.

Lemma try_urls_keyed (us : list string) (items : list (string * pyvalue)) :
  forall pre rest,
    try_urls to_double unlabelled us (pre ++ Body (PDict items) :: rest)
    = try_urls to_double unlabelled us (pre ++ Body (PList (List.map snd items)) :: rest).
Proof.
  induction us as [|url us IH]; intros pre rest; [reflexivity|].
  destruct pre as [|o pre]; simpl.
  - reflexivity.
  - now rewrite IH.
Qed.

Lemma try_url_fails (o : outcome) :
  fails_or_empty o -> try_url to_double unlabelled o = None.
Proof.
  destruct o as [| |data]; simpl; try reflexivity.
  intros ->. reflexivity.
Qed.

(** *** Columns of a table of records *)


Lemma lacks_not_in (k : string) (r : list (string * pyvalue)) :
  lacks k r -> ~ In k (List.map fst r).
Proof.
  unfold lacks. induction r as [|[k' v'] r IH]; simpl; [tauto|].
  destruct (String.eqb k' k) eqn:E; [discriminate|].
  apply String.eqb_neq in E. intros H [H1|H1]; [congruence | now apply IH].
Qed.






(** *** The type of a column *)

Lemma recast_cases (col : list pyvalue) :
  recast to_double col = col \/ recast to_double col = List.map (as_float to_double) col.
Proof.
  unfold recast.
  destruct (object_ _ || bool_ _); [now left|].
  destruct (null_ _ || nan_ _).
  - destruct (float_ _ || int_ _ || nan_ _); [now right | now left].
  - destruct (float_ _); [now right | now left].
Qed.



Lemma as_float_vendor (v : pyvalue) :
  _extract_cpu_vendor (as_float to_double v) = _extract_cpu_vendor v.
Proof.
  destruct v as [| |n| | | |]; try reflexivity. simpl.
  rewrite (numeric_unknown (PFloat (to_double n)) (float_str_numeric _)).
  now rewrite (numeric_unknown (PInt n) (int_str_numeric n)).
Qed.

(** The vendor read from a column does not depend on the type pandas has
    given the column. *)
Lemma classify_recast (col : list pyvalue) :
  classify (recast to_double col) = classify col.
Proof.
  destruct (recast_cases col) as [-> | ->]; [reflexivity|].
  unfold classify. rewrite map_map. apply map_ext. intro v.
  now rewrite as_float_vendor.
Qed.



Lemma column_of_records (records : list (list (string * pyvalue))) (k : string) :
  In k (union_keys records) ->
  column (frame_of_records to_double records) (Name k)
  = Some (recast to_double (List.map (fun r => dict_get r k NaN) records)).
Proof.
  unfold column, frame_of_records. simpl.
  induction (union_keys records) as [|k' ks IH]; simpl; [tauto|].
  destruct (String.eqb k' k) eqn:E.
  - apply String.eqb_eq in E. now subst.
  - apply String.eqb_neq in E. intros [H|H]; [congruence | now apply IH].
Qed.


Lemma has_column_of_records (records : list (list (string * pyvalue))) (k : string) :
  ~ In k (union_keys records) ->
  has_column (frame_of_records to_double records) (Name k) = false.
Proof.
  unfold has_column, frame_of_records. simpl.
  induction (union_keys records) as [|k' ks IH]; simpl; [reflexivity|].
  intro H. destruct (String.eqb k' k) eqn:E.
  - apply String.eqb_eq in E. tauto.
  - apply IH. tauto.
Qed.


Lemma add_cpu_vendor_sets (df : DataFrame) :
  exists values, add_cpu_vendor df = set_column df (Name "CPU Vendor") values.
Proof.
  unfold add_cpu_vendor, set_column_const.
  destruct (column df (Name "processor")); [eauto|].
  destruct (column df (Name "Processor")); eauto.
Qed.

Lemma all_dicts_map (records : list (list (string * pyvalue))) :
  all_dicts (List.map PDict records) = Some records.
Proof.
  induction records as [|r records IH]; simpl; [reflexivity | now rewrite IH].
Qed.

(** C6: a body that is a keyed object and a body that is the plain array of
    the object's values, in the same order, give the same normalized
    sequence, and the fetcher returns the same result for both, at whichever
    URL the body arrives; two entries give the two-element sequence. *)
Theorem keyed_object_as_array (items : list (string * pyvalue)) :
  normalize (PDict items) = normalize (PList (List.map snd items))
  /\ (forall ka a kb b, normalize (PDict [(ka, a); (kb, b)]) = PList [a; b])
  /\ (forall pre rest,
        fetch_aws_instances to_double unlabelled (pre ++ Body (PDict items) :: rest)
        = fetch_aws_instances to_double unlabelled (pre ++ Body (PList (List.map snd items)) :: rest)).
Proof.
  split; [reflexivity|]. split; [reflexivity|].
  intros pre rest. apply try_urls_keyed.
Qed.

(** C7: when the outcome of every URL asked is a failure or an empty
    sequence, the fetcher returns the empty table, having asked every URL
    in order; this holds for any list of URLs, the two of the program
    among them. *)
Theorem all_urls_fail_gives_empty (us : list string) (s : session) :
  (List.length us <= List.length s)%nat ->
  Forall fails_or_empty (firstn (List.length us) s) ->
  try_urls to_double unlabelled us s = Some (empty_frame, us).
Proof.
  revert s; induction us as [|url us IH]; intros s Hlen Hall; [reflexivity|].
  destruct s as [|o s]; simpl in Hlen; [lia|].
  simpl in Hall. inversion Hall as [|? ? Ho Hrest]; subst.
  simpl. rewrite (try_url_fails o Ho), IH; [reflexivity | lia | exact Hrest].
Qed.

Lemma try_urls_first_table (us : list string) (pre : session) o rest df :
  (List.length pre < List.length us)%nat ->
  Forall (fun o => try_url to_double unlabelled o = None) pre ->
  try_url to_double unlabelled o = Some df ->
  try_urls to_double unlabelled us (pre ++ o :: rest)
  = Some (df, firstn (S (List.length pre)) us).
Proof.
  revert us; induction pre as [|p pre IH]; intros us Hlen Hpre Ho.
  - destruct us as [|url us]; simpl in Hlen; [lia|]. simpl. now rewrite Ho.
  - destruct us as [|url us]; simpl in Hlen; [lia|].
    inversion Hpre as [|? ? Hp Hrest]; subst.
    simpl. rewrite Hp, IH; [reflexivity | lia | exact Hrest | exact Ho].
Qed.

(** The first URL whose body makes a table wins: when the outcomes before
    it are failures or empty sequences, the fetcher returns that table and
    has asked the URLs up to that one, no more. *)
Theorem first_answering_url_wins (us : list string) (pre : session) o rest df :
  (List.length pre < List.length us)%nat ->
  Forall fails_or_empty pre ->
  try_url to_double unlabelled o = Some df ->
  try_urls to_double unlabelled us (pre ++ o :: rest)
  = Some (df, firstn (S (List.length pre)) us).
Proof.
  intros Hlen Hpre Ho. apply try_urls_first_table; try assumption.
  apply Forall_forall. intros x Hx. rewrite Forall_forall in Hpre.
  exact (try_url_fails x (Hpre x Hx)).
Qed.

End AwsFacts.

Lemma all_urls_fail_gives_empty_witness :
  Aws.fetch_aws_instances exact_double (fun _ => None) [Failure; Body (PDict [])]
  = Some (Aws.empty_frame, Aws.urls).
Proof.
  apply (all_urls_fail_gives_empty exact_double (fun _ => None) Aws.urls [Failure; Body (PDict [])]).
  - simpl. lia.
  - simpl. repeat constructor.
Defined.

Lemma first_answering_url_wins_witness :
  Aws.try_urls exact_double (fun _ => None) ["https://a.example/i.json"; "https://b.example/i.json";
                               "https://c.example/i.json"; "https://d.example/i.json"]%string
    [Body (PList []); Failure; Body sample_catalog; Failure]
  = Some (Aws.add_cpu_vendor (Aws.frame_of_records exact_double sample_records),
          ["https://a.example/i.json"; "https://b.example/i.json";
           "https://c.example/i.json"]%string).
Proof.
  apply (first_answering_url_wins exact_double (fun _ => None)
           ["https://a.example/i.json"; "https://b.example/i.json";
            "https://c.example/i.json"; "https://d.example/i.json"]%string
           [Body (PList []); Failure] (Body sample_catalog) [Failure]).
  - simpl. lia.
  - repeat constructor.
  - reflexivity.
Defined.

(* ================================================================= *)
(** ** More on the classifier *)

Section ClassifierMore.

Import Text.

Lemma fold_append (a b : string) :
  fold_case (a ++ b) = (fold_case a ++ fold_case b)%string.
Proof. induction a as [|c a IH]; simpl; [reflexivity | now rewrite IH]. Qed.

Lemma fold_split (s a b : string) :
  fold_case s = (a ++ b)%string ->
  exists a' b', s = (a' ++ b')%string /\ fold_case a' = a /\ fold_case b' = b.
Proof.
  revert s; induction a as [|c a IH]; intros s H.
  - now exists ""%string, s.
  - destruct s as [|d s]; simpl in H; [discriminate|].
    injection H as Hc Hs. destruct (IH _ Hs) as (a' & b' & -> & <- & <-).
    exists (String d a'), b'. simpl. now rewrite Hc.
Qed.

Lemma mentions_fold (p : string) (u v : pyvalue) :
  fold_case (Py.str u) = fold_case (Py.str v) -> mentions p u -> mentions p v.
Proof.
  intros E (pre & x & post & Hu & Hx).
  rewrite Hu, !fold_append, Hx in E. symmetry in E.
  destruct (fold_split _ _ _ E) as (a & rest & Ea & _ & E2).
  destruct (fold_split _ _ _ E2) as (y & b & -> & Hy & _).
  now exists a, y, b.
Qed.

Lemma contains_fold (p : string) (u v : pyvalue) :
  ascii_only p = true ->
  fold_case (Py.str u) = fold_case (Py.str v) ->
  contains p (lower (Py.str u)) = contains p (lower (Py.str v)).
Proof.
  intros Hp E. apply Bool.eq_true_iff_eq.
  rewrite <- !(mentions_contains p _ Hp).
  split; apply mentions_fold; [exact E | symmetry; exact E].
Qed.

(** Two inputs whose texts differ only in the case of ASCII letters get the
    same vendor. *)
Theorem letter_case_is_ignored (u v : pyvalue) :
  fold_case (Py.str u) = fold_case (Py.str v) ->
  _extract_cpu_vendor u = _extract_cpu_vendor v.
Proof.
  intro E. unfold _extract_cpu_vendor. cbv zeta.
  rewrite (contains_fold "amd" u v eq_refl E), (contains_fold "intel" u v eq_refl E),
    (contains_fold "arm" u v eq_refl E), (contains_fold "ampere" u v eq_refl E).
  reflexivity.
Qed.

Lemma letter_case_is_ignored_witness :
  _extract_cpu_vendor (PStr "aMpErE altra max") = _extract_cpu_vendor (PStr "Ampere Altra MAX").
Proof.
  apply (letter_case_is_ignored (PStr "aMpErE altra max") (PStr "Ampere Altra MAX")).
  reflexivity.
Defined.

Lemma mentions_amd (v : pyvalue) : mentions "amd" v -> _extract_cpu_vendor v = AMD.
Proof.
  intro H. apply (mentions_contains "amd" v eq_refl) in H.
  unfold _extract_cpu_vendor. cbv zeta. now rewrite H.
Qed.

(** *** Texts inside a list *)

Lemma repr_char_alpha (c : ascii) :
  alpha c = true ->
  repr_char "'" c = String c "" /\ repr_char "034" c = String c "".
Proof.
  destruct c as [[] [] [] [] [] [] [] []]; intro H;
    first [discriminate H | split; reflexivity].
Qed.

Lemma escape_append (q : ascii) (a b : string) :
  escape q (a ++ b) = (escape q a ++ escape q b)%string.
Proof.
  induction a as [|c a IH]; simpl; [reflexivity|]. now rewrite IH, append_assoc.
Qed.

Lemma escape_alpha (x : string) :
  all_chars alpha x = true -> escape "'" x = x /\ escape "034" x = x.
Proof.
  induction x as [|c x IH]; simpl; [now split|].
  intro H. apply andb_true_iff in H as [Hc Hx].
  destruct (repr_char_alpha c Hc) as [E1 E2], (IH Hx) as [I1 I2].
  now rewrite E1, E2, I1, I2.
Qed.

Lemma fold_alpha (x p : string) :
  all_chars alpha p = true -> fold_case x = p -> all_chars alpha x = true.
Proof.
  revert p; induction x as [|c x IH]; intros p Hp E; [reflexivity|].
  destruct p as [|d p]; [discriminate|]. simpl in *.
  injection E as Ec Ex. apply andb_true_iff in Hp as [Hd Hp].
  rewrite (IH p Hp Ex), andb_true_r. subst d. revert Hd.
  destruct c as [[] [] [] [] [] [] [] []]; vm_compute; trivial.
Qed.

(** The text form of a string keeps every run of letters of the string. *)
Lemma repr_keeps_letters (s pre x post : string) :
  s = (pre ++ x ++ post)%string -> all_chars alpha x = true ->
  exists a b, Text.repr s = (a ++ x ++ b)%string.
Proof.
  intros -> Hx. unfold Text.repr.
  destruct (escape_alpha x Hx) as [E1 E2].
  set (q := if (has_char "'" _ && negb (has_char "034" _))%bool
            then "034"%char else "'"%char).
  assert (Hq : escape q x = x) by (subst q; now destruct (_ && _)%bool).
  exists (String q (escape q pre)), (escape q post ++ String q "")%string.
  rewrite !escape_append, Hq. simpl. now rewrite !append_assoc.
Qed.

Lemma join_member (sep e : string) (parts : list string) :
  In e parts -> exists a b, join sep parts = (a ++ e ++ b)%string.
Proof.
  induction parts as [|p parts IH]; [intros []|].
  intros [->|H].
  - destruct parts as [|p' parts].
    + exists ""%string, ""%string. simpl. now rewrite append_nil_r.
    + exists ""%string, (sep ++ join sep (p' :: parts))%string. reflexivity.
  - destruct (IH H) as (a & b & E). destruct parts as [|p' parts]; [destruct H|].
    exists (p ++ sep ++ a)%string, b.
    change (join sep (p :: p' :: parts)) with (p ++ sep ++ join sep (p' :: parts))%string.
    now rewrite E, !append_assoc.
Qed.

(** A list that holds a text with "amd" in it, in any letter case, is
    classified AMD, whatever its other elements. *)
Theorem list_holding_amd_text (items : list pyvalue) (s : string) :
  In (PStr s) items -> mentions "amd" (PStr s) ->
  _extract_cpu_vendor (PList items) = AMD.
Proof.
  intros Hin (pre & x & post & Hs & Hx). apply mentions_amd.
  simpl in Hs.
  destruct (repr_keeps_letters s pre x post Hs (fold_alpha x "amd" eq_refl Hx))
    as (a & b & Er).
  assert (Hm : In (Text.repr s) (List.map Py.repr items)).
  { apply in_map_iff. now exists (PStr s). }
  destruct (join_member ", " _ _ Hm) as (a' & b' & Ej).
  exists ("[" ++ a' ++ a)%string, x, (b ++ b' ++ "]")%string.
  split; [|exact Hx]. simpl. rewrite Ej, Er.
  now rewrite !append_assoc.
Qed.

Lemma list_holding_amd_text_witness :
  _extract_cpu_vendor (PList [PInt 64; PStr "Amd EPYC 'Milan'"; PStr "Intel"]) = AMD.
Proof.
  apply (list_holding_amd_text [PInt 64; PStr "Amd EPYC 'Milan'"; PStr "Intel"]
           "Amd EPYC 'Milan'").
  - right. now left.
  - exists ""%string, "Amd"%string, " EPYC 'Milan'"%string. split; reflexivity.
Defined.

End ClassifierMore.

(* ================================================================= *)
(** ** More on the paginated fetcher *)

Section AzureMore.

Import Azure.
Local Open Scope list_scope.

Local Opaque series_filter.

(** A page that is processed is an object; its rows are its accepted items
    and the link is its [NextPageLink]. *)
Lemma process_page_collected limit np acc data filtered next :
  guard limit np acc = true ->
  process_page limit acc data = Some (filtered, next) ->
  filtered = collected [Body data]
  /\ exists fields, data = PDict fields /\ next = dict_get fields "NextPageLink" PNone.
Proof.
  intros Hg Hp. unfold process_page in Hp.
  destruct data as [| | | | | |fields]; try discriminate. simpl in Hp |- *.
  destruct (iterate (dict_get fields "Items" (PList []))) as [its|]; [|discriminate].
  destruct (scan_items limit acc its []) as [f|] eqn:Hs; [|discriminate].
  injection Hp as <- <-. rewrite app_nil_r. split.
  - exact (scan_items_accepted _ _ _ (guard_limit _ _ _ Hg) _ _ Hs).
  - now exists fields.
Qed.

Lemma fetch_loop_first_request limit o (rest : session) np acc rows reqs :
  guard limit np acc = true ->
  fetch_loop limit (o :: rest) np acc = Some (rows, reqs) ->
  exists more, reqs = np :: more.
Proof.
  intros Hg H. simpl in H. rewrite Hg in H.
  destruct (iteration limit np acc o) as [all|next all].
  - injection H as _ <-. now exists [].
  - destruct (fetch_loop limit rest next all) as [[r q]|]; [|discriminate].
    injection H as _ <-. now exists q.
Qed.

Lemma fetch_loop_collected limit (s : session) :
  forall np acc rows reqs,
    guard limit np acc = true ->
    fetch_loop limit s np acc = Some (rows, reqs) ->
    exists k, (k = List.length reqs \/ S k = List.length reqs)
              /\ rows = acc ++ collected (firstn k s).
Proof.
  induction s as [|o s IH]; intros np acc rows reqs Hg H; simpl in H; rewrite Hg in H.
  - discriminate.
  - destruct (iteration limit np acc o) as [all|next all] eqn:Hi.
    + injection H as <- <-. destruct o as [| |data]; simpl in Hi.
      * discriminate.
      * injection Hi as <-. exists 0%nat. simpl. rewrite app_nil_r. auto.
      * destruct (process_page limit acc data) as [[filtered nx]|] eqn:Hp.
        -- destruct (negb (truthy nx) || (limit <=? len (acc ++ filtered)));
             [|discriminate].
           injection Hi as <-. exists 1%nat. split; [now left|].
           destruct (process_page_collected _ _ _ _ _ _ Hg Hp) as [-> _].
           reflexivity.
        -- injection Hi as <-. exists 0%nat. simpl. rewrite app_nil_r. auto.
    + destruct (iteration_continue _ _ _ _ _ _ Hg Hi) as [E Hg'].
      destruct (fetch_loop limit s next all) as [[r q]|] eqn:Hl; [|discriminate].
      injection H as <- <-.
      destruct (IH _ _ _ _ Hg' Hl) as (k & Hk & ->).
      exists (S k). split; [simpl; destruct Hk; auto|].
      rewrite firstn_cons, collected_cons, E. now rewrite app_assoc.
Qed.

(** One outcome is used per request, and the outcomes past the last
    request have no part in the result: the session after a run is the
    session without its first [length reqs] outcomes. *)
Lemma fetch_loop_consumes limit (s : session) :
  forall np acc rows reqs,
    fetch_loop limit s np acc = Some (rows, reqs) ->
    (List.length reqs <= List.length s)%nat
    /\ forall s', fetch_loop limit (firstn (List.length reqs) s ++ s') np acc
                  = Some (rows, reqs).
Proof.
  induction s as [|o s IH]; intros np acc rows reqs H; simpl in H.
  - destruct (guard limit np acc) eqn:Hg; [discriminate|]. injection H as <- <-.
    split; [simpl; lia|]. intro s'. simpl. destruct s'; simpl; now rewrite Hg.
  - destruct (guard limit np acc) eqn:Hg.
    + destruct (iteration limit np acc o) as [all|next all] eqn:Hi.
      * injection H as <- <-. split; [simpl; lia|]. intro s'. simpl.
        now rewrite Hg, Hi.
      * destruct (fetch_loop limit s next all) as [[r q]|] eqn:Hl; [|discriminate].
        injection H as <- <-. destruct (IH _ _ _ _ Hl) as [Hlen Hpre].
        split; [simpl; lia|]. intro s'. simpl. now rewrite Hg, Hi, Hpre.
    + injection H as <- <-. split; [simpl; lia|]. intro s'. simpl.
      destruct s'; simpl; now rewrite Hg.
Qed.

Lemma fetch_loop_collected_exact limit (s : session) :
  forall np acc rows reqs,
    guard limit np acc = true ->
    fetch_loop limit s np acc = Some (rows, reqs) ->
    rows = acc ++ collected (firstn (List.length reqs) s)
    \/ exists k o,
         S k = List.length reqs /\ nth_error s k = Some o
         /\ raises limit (acc ++ collected (firstn k s)) o
         /\ rows = acc ++ collected (firstn k s).
Proof.
  induction s as [|o s IH]; intros np acc rows reqs Hg H; simpl in H; rewrite Hg in H.
  - discriminate.
  - destruct (iteration limit np acc o) as [all|next all] eqn:Hi.
    + injection H as <- <-. destruct o as [| |data]; simpl in Hi.
      * discriminate.
      * injection Hi as <-. right. exists 0%nat, Failure. simpl.
        rewrite app_nil_r. auto.
      * destruct (process_page limit acc data) as [[filtered nx]|] eqn:Hp.
        -- destruct (negb (truthy nx) || (limit <=? len (acc ++ filtered)));
             [|discriminate].
           injection Hi as <-. left.
           destruct (process_page_collected _ _ _ _ _ _ Hg Hp) as [-> _].
           reflexivity.
        -- injection Hi as <-. right. exists 0%nat, (Body data). simpl.
           rewrite app_nil_r. auto.
    + destruct (iteration_continue _ _ _ _ _ _ Hg Hi) as [E Hg'].
      destruct (fetch_loop limit s next all) as [[r q]|] eqn:Hl; [|discriminate].
      injection H as <- <-.
      destruct (IH _ _ _ _ Hg' Hl) as [->|(k & o' & Hk & Hn & Hr & ->)].
      * left. cbn [List.length firstn]. rewrite collected_cons, E.
        now rewrite app_assoc.
      * right. exists (S k), o'. cbn [List.length firstn nth_error].
        rewrite collected_cons, app_assoc, <- E. auto.
Qed.

(** The rows returned are the accepted items of the outcomes the loop went
    through, page after page and in the order of each page: of all the
    outcomes asked for, the last page with them; or, when the last outcome
    asked for raised, of all the outcomes before that one. *)
Theorem pages_in_order (limit : Z) (s : session) rows reqs :
  fetch_azure_vm_pricing limit s = Some (rows, reqs) ->
  rows = collected (firstn (List.length reqs) s)
  \/ exists k o,
       S k = List.length reqs /\ nth_error s k = Some o
       /\ raises limit (collected (firstn k s)) o
       /\ rows = collected (firstn k s).
Proof.
  unfold fetch_azure_vm_pricing. intro H.
  destruct (guard limit (PStr base_url) []) eqn:Hg.
  - exact (fetch_loop_collected_exact _ _ _ _ _ _ Hg H).
  - left. destruct s; simpl in H; rewrite Hg in H; now injection H as <- <-.
Qed.

Lemma accepted_in (items : list pyvalue) (r : row) :
  In r (accepted items) ->
  exists fields,
    In (PDict fields) items
    /\ dict_get fields "armSkuName" (PStr "") = PStr (VM_Name r)
    /\ r = make_row (VM_Name r) fields.
Proof.
  induction items as [|item items IH]; [intros []|].
  assert (Hrest : In r (accepted items) ->
                  exists fields, In (PDict fields) (item :: items)
                    /\ dict_get fields "armSkuName" (PStr "") = PStr (VM_Name r)
                    /\ r = make_row (VM_Name r) fields).
  { intro H. destruct (IH H) as (fields & Hin & Hrow). exists fields.
    split; [now right | exact Hrow]. }
  destruct item as [| | | | | |fields]; simpl; try exact Hrest.
  destruct (dict_get fields "armSkuName" (PStr "")) as [| | | |s| |] eqn:Hsku;
    try exact Hrest.
  destruct (existsb (Text.startswith s) series_filter); [|exact Hrest].
  intros [<-|H]; [|exact (Hrest H)].
  exists fields. simpl. split; [now left|]. now split.
Qed.

Lemma collected_in (os : list outcome) (r : row) :
  In r (collected os) ->
  exists page items fields,
    In (Body (PDict page)) os
    /\ iterate (dict_get page "Items" (PList [])) = Some items
    /\ In (PDict fields) items
    /\ dict_get fields "armSkuName" (PStr "") = PStr (VM_Name r)
    /\ r = make_row (VM_Name r) fields.
Proof.
  induction os as [|o os IH]; [intros []|].
  rewrite collected_cons, in_app_iff. intros [H|H].
  - destruct o as [| |[| | | | | |page]]; simpl in H; try contradiction.
    destruct (iterate (dict_get page "Items" (PList []))) as [items|] eqn:Hit;
      [|contradiction].
    rewrite app_nil_r in H. destruct (accepted_in _ _ H) as (fields & Hin & Hrow).
    exists page, items, fields. split; [now left|]. now split.
  - destruct (IH H) as (page & items & fields & Hin & Hrest).
    exists page, items, fields. split; [now right | exact Hrest].
Qed.

(** No row is invented: every row returned is the row made of an item of
    a page of the session, an object whose [armSkuName] is the row's name. *)
Theorem rows_come_from_items (limit : Z) (s : session) rows reqs (r : row) :
  fetch_azure_vm_pricing limit s = Some (rows, reqs) ->
  In r rows ->
  exists page items fields,
    In (Body (PDict page)) s
    /\ iterate (dict_get page "Items" (PList [])) = Some items
    /\ In (PDict fields) items
    /\ dict_get fields "armSkuName" (PStr "") = PStr (VM_Name r)
    /\ r = make_row (VM_Name r) fields.
Proof.
  unfold fetch_azure_vm_pricing. intros H Hr.
  destruct (guard limit (PStr base_url) []) eqn:Hg.
  - destruct (fetch_loop_collected _ _ _ _ _ _ Hg H) as (k & _ & E).
    simpl in E. subst rows.
    destruct (collected_in _ _ Hr) as (page & items & fields & Hin & Hrest).
    exists page, items, fields. split; [|exact Hrest].
    rewrite <- (firstn_skipn k s). apply in_or_app. now left.
  - destruct s; simpl in H; rewrite Hg in H; injection H as <- _; destruct Hr.
Qed.

(** C9: in every row the fetcher returns, "Arm SKU" and "VM Name" hold the
    same text, that text is not empty, and it is the [armSkuName] of an
    item of a page of the session: both fields are read from that one
    value. *)
Theorem rows_named_by_sku (limit : Z) (s : session) rows reqs :
  fetch_azure_vm_pricing limit s = Some (rows, reqs) ->
  Forall (fun r => sku_named r /\ read_from_item s r) rows.
Proof.
  intro H. pose proof (rows_sku_named _ _ _ _ H) as Hnamed.
  rewrite Forall_forall in *. intros r Hr. split; [exact (Hnamed r Hr)|].
  destruct (Hnamed r Hr) as [Harm _].
  unfold fetch_azure_vm_pricing in H.
  destruct (guard limit (PStr base_url) []) eqn:Hg.
  - destruct (fetch_loop_collected _ _ _ _ _ _ Hg H) as (k & _ & E).
    simpl in E. subst rows.
    destruct (collected_in _ _ Hr) as (page & items & fields & Hin & Hit & Hf & Hsku & _).
    exists page, items, fields. split.
    + rewrite <- (firstn_skipn k s). apply in_or_app. now left.
    + repeat split; try assumption. now rewrite Harm.
  - destruct s; simpl in H; rewrite Hg in H; injection H as <- _; destruct Hr.
Qed.

(** Pagination ends with the page that has no next link, or that brings the
    rows held to the limit or past it: the rows of that page are the last,
    and its request is the last request. *)
Theorem pagination_ends limit pre np acc data filtered next rest :
  reaches limit (PStr base_url) [] pre np acc ->
  guard limit np acc = true ->
  process_page limit acc data = Some (filtered, next) ->
  truthy next = false \/ limit <= len (acc ++ filtered) ->
  exists reqs, List.length reqs = List.length pre
    /\ fetch_azure_vm_pricing limit (pre ++ Body data :: rest)
       = Some (acc ++ filtered, reqs ++ [np]).
Proof.
  intros Hr Hg Hp Hend.
  destruct (reaches_fetch_loop _ _ _ _ _ _ Hr) as (reqs & Hlen & E).
  exists reqs. split; [exact Hlen|].
  unfold fetch_azure_vm_pricing.
  rewrite E, (fetch_loop_page _ _ _ _ _ _ rest Hg Hp). unfold after_page.
  replace (negb (truthy next) || (limit <=? len (acc ++ filtered))) with true.
  - reflexivity.
  - symmetry. apply orb_true_iff. destruct Hend as [Ht|Hl].
    + left. now rewrite Ht.
    + right. now apply Z.leb_le.
Qed.

(** Below the limit, the loop follows the link of the page: the request
    after the page's asks its [NextPageLink]. *)
Theorem next_link_is_followed limit pre np acc data filtered next o rest rows asked :
  reaches limit (PStr base_url) [] pre np acc ->
  guard limit np acc = true ->
  process_page limit acc data = Some (filtered, next) ->
  truthy next = true ->
  len (acc ++ filtered) < limit ->
  fetch_azure_vm_pricing limit (pre ++ Body data :: o :: rest) = Some (rows, asked) ->
  reaches limit (PStr base_url) [] (pre ++ [Body data]) next (acc ++ filtered)
  /\ exists reqs more, List.length reqs = List.length pre
       /\ asked = reqs ++ np :: next :: more.
Proof.
  intros Hr Hg Hp Ht Hl H.
  assert (Hb : negb (truthy next) || (limit <=? len (acc ++ filtered)) = false).
  { rewrite Ht. simpl. now apply Z.leb_gt. }
  assert (Hi : iteration limit np acc (Body data) = Continue next (acc ++ filtered)).
  { simpl. rewrite Hp. cbv zeta. now rewrite Hb. }
  assert (Hg' : guard limit next (acc ++ filtered) = true)
    by exact (proj2 (iteration_continue _ _ _ _ _ _ Hg Hi)).
  split.
  - apply (reaches_app _ _ _ _ _ _ _ _ _ Hr).
    exact (reaches_cons _ _ _ _ _ _ _ _ _ Hg Hi (reaches_nil _ _ _)).
  - destruct (reaches_fetch_loop _ _ _ _ _ _ Hr) as (reqs & Hlen & E).
    unfold fetch_azure_vm_pricing in H.
    rewrite E, (fetch_loop_page _ _ _ _ _ _ (o :: rest) Hg Hp) in H.
    unfold after_page in H. rewrite Hb in H.
    destruct (fetch_loop limit (o :: rest) next (acc ++ filtered)) as [[r q]|] eqn:Hl2;
      [|discriminate].
    destruct (fetch_loop_first_request _ _ _ _ _ _ _ Hg' Hl2) as [more ->].
    simpl in H. injection H as _ <-. now exists reqs, more.
Qed.

Lemma scan_items_none_iff (limit : Z) (acc : list row) (items : list pyvalue) :
  (limit <=? len acc) = false ->
  forall f0, scan_items limit acc items f0 = None <-> Exists bad_item items.
Proof.
  intro Hlim. induction items as [|item items IH]; intro f0.
  - simpl. rewrite Exists_nil. split; [discriminate | tauto].
  - rewrite Exists_cons. simpl. rewrite Hlim.
    destruct item as [| | | | | |fields]; simpl; try (split; [now left | reflexivity]).
    destruct (dict_get fields "armSkuName" (PStr "")) as [| |n|f|s| |] eqn:Hsku;
      try (match goal with
           | |- (if truthy ?v then _ else _) = None <-> ?P \/ _ =>
               change P with (truthy v = true); destruct (truthy v)
           end;
           [split; [now left | reflexivity]
           |rewrite IH; split; [now right | intros [H|H]; [discriminate | exact H]]]).
    destruct (truthy (PStr s)); [destruct (existsb (Text.startswith s) series_filter)|];
      rewrite IH; (split; [now right | intros [[]|H]; exact H]).
Qed.

(** When a body raises, exactly: it is not an object, its [Items] cannot be
    iterated (null, a number, a boolean), or one of its items is not an
    object or has an [armSkuName] that tests true and is not a text. *)
Theorem body_raises_exactly limit np acc (data : pyvalue) :
  guard limit np acc = true ->
  raises limit acc (Body data)
  <-> unreadable data
      \/ exists fields items,
           data = PDict fields
           /\ iterate (dict_get fields "Items" (PList [])) = Some items
           /\ Exists bad_item items.
Proof.
  intro Hg. pose proof (guard_limit _ _ _ Hg) as Hlim. simpl. unfold process_page.
  destruct data as [| | | | | |fields]; simpl;
    try (split; [intros _; now left | reflexivity]).
  destruct (iterate (dict_get fields "Items" (PList []))) as [items|] eqn:Hit.
  - destruct (scan_items limit acc items []) as [f|] eqn:Hs.
    + split; [discriminate|].
      intros [H|(fields' & items' & E & Hit' & Hbad)]; [discriminate|].
      injection E as <-. rewrite Hit in Hit'. injection Hit' as <-.
      apply (scan_items_none_iff _ _ _ Hlim []) in Hbad. congruence.
    + split; [|reflexivity]. intros _. right. exists fields, items.
      split; [reflexivity|]. split; [exact Hit|].
      now apply (scan_items_none_iff _ _ _ Hlim []).
  - split; [intros _; now left | reflexivity].
Qed.

(** A page without the key [Items] is an empty page, not an error: nothing
    is added and the run goes on from its [NextPageLink]. *)
Theorem page_without_items limit np acc (fields : list (string * pyvalue)) rest :
  guard limit np acc = true ->
  lookup "Items" fields = None ->
  fetch_loop limit (Body (PDict fields) :: rest) np acc
  = add_requests [np]
      (after_page limit rest (dict_get fields "NextPageLink" PNone) acc).
Proof.
  intros Hg Hl.
  assert (Hp : process_page limit acc (PDict fields)
               = Some ([], dict_get fields "NextPageLink" PNone)).
  { unfold process_page. simpl. unfold dict_get at 1. now rewrite Hl. }
  rewrite (fetch_loop_page _ _ _ _ _ _ rest Hg Hp). now rewrite app_nil_r.
Qed.

(** A limit of zero or less asks nothing and returns nothing; above zero
    the first request asks the base URL. *)
Theorem first_request limit (s : session) rows reqs :
  fetch_azure_vm_pricing limit s = Some (rows, reqs) ->
  (limit <= 0 -> rows = [] /\ reqs = [])
  /\ (0 < limit -> exists more, reqs = PStr base_url :: more).
Proof.
  unfold fetch_azure_vm_pricing. intro H. split; intro Hl.
  - assert (Hg : guard limit (PStr base_url) [] = false).
    { unfold guard. simpl. apply Z.ltb_ge. exact Hl. }
    destruct s; simpl in H; rewrite Hg in H; now injection H as <- <-.
  - assert (Hg : guard limit (PStr base_url) [] = true).
    { unfold guard. simpl. apply Z.ltb_lt. exact Hl. }
    destruct s as [|o s]; [simpl in H; rewrite Hg in H; discriminate|].
    exact (fetch_loop_first_request _ _ _ _ _ _ _ Hg H).
Qed.

Local Transparent series_filter.

End AzureMore.

Lemma pages_in_order_witness :
  first_page_rows = Azure.collected (firstn 2 [Body first_page; Body broken_page])
  \/ exists k o,
       S k = 2%nat /\ nth_error [Body first_page; Body broken_page] k = Some o
       /\ Azure.raises 10 (Azure.collected (firstn k [Body first_page; Body broken_page])) o
       /\ first_page_rows = Azure.collected (firstn k [Body first_page; Body broken_page]).
Proof.
  apply (pages_in_order 10 [Body first_page; Body broken_page] first_page_rows
           [PStr Azure.base_url;
            PStr "https://prices.azure.com/api/retail/prices?$skip=100"]).
  vm_compute. reflexivity.
Defined.

Lemma rows_named_by_sku_witness :
  Forall (fun r => Azure.sku_named r
                   /\ Azure.read_from_item [Body first_page; Body two_d_series] r)
    (first_page_rows
     ++ [Azure.make_row "D2s_v3" [("armSkuName", PStr "D2s_v3"); ("productName", PStr "Dsv3 Series")];
         Azure.make_row "D4s_v3" [("armSkuName", PStr "D4s_v3"); ("productName", PStr "Dsv3 Series")]])%list.
Proof.
  apply (rows_named_by_sku 10 [Body first_page; Body two_d_series] _
           [PStr Azure.base_url;
            PStr "https://prices.azure.com/api/retail/prices?$skip=100"]).
  vm_compute. reflexivity.
Defined.

Lemma rows_come_from_items_witness :
  exists page items fields,
    In (Body (PDict page)) [Body first_page; Failure]
    /\ Azure.iterate (dict_get page "Items" (PList [])) = Some items
    /\ In (PDict fields) items
    /\ dict_get fields "armSkuName" (PStr "") = PStr "P3"
    /\ Azure.make_row "P3" [("armSkuName", PStr "P3"); ("unitPrice", PInt 4)]
       = Azure.make_row "P3" fields.
Proof.
  apply (rows_come_from_items 10 [Body first_page; Failure] first_page_rows
           [PStr Azure.base_url;
            PStr "https://prices.azure.com/api/retail/prices?$skip=100"]
           (Azure.make_row "P3" [("armSkuName", PStr "P3"); ("unitPrice", PInt 4)])).
  - vm_compute. reflexivity.
  - right. now left.
Defined.

Lemma pagination_ends_witness :
  exists reqs, List.length reqs = 1%nat
    /\ Azure.fetch_azure_vm_pricing 10 [Body first_page; Body two_d_series; Failure]
       = Some ((first_page_rows
                ++ [Azure.make_row "D2s_v3" [("armSkuName", PStr "D2s_v3"); ("productName", PStr "Dsv3 Series")];
                    Azure.make_row "D4s_v3" [("armSkuName", PStr "D4s_v3"); ("productName", PStr "Dsv3 Series")]])%list,
               (reqs ++ [PStr "https://prices.azure.com/api/retail/prices?$skip=100"])%list).
Proof.
  apply (pagination_ends 10 [Body first_page]
           (PStr "https://prices.azure.com/api/retail/prices?$skip=100")
           first_page_rows two_d_series _ PNone [Failure] first_page_reached).
  - reflexivity.
  - vm_compute. reflexivity.
  - now left.
Defined.

Lemma next_link_is_followed_witness :
  Azure.reaches 10 (PStr Azure.base_url) [] [Body first_page]
    (PStr "https://prices.azure.com/api/retail/prices?$skip=100") first_page_rows
  /\ exists reqs more, List.length reqs = 0%nat
       /\ [PStr Azure.base_url; PStr "https://prices.azure.com/api/retail/prices?$skip=100"]
          = (reqs ++ PStr Azure.base_url
                  :: PStr "https://prices.azure.com/api/retail/prices?$skip=100" :: more)%list.
Proof.
  apply (next_link_is_followed 10 [] (PStr Azure.base_url) [] first_page first_page_rows
           (PStr "https://prices.azure.com/api/retail/prices?$skip=100")
           Failure [] first_page_rows
           [PStr Azure.base_url; PStr "https://prices.azure.com/api/retail/prices?$skip=100"]).
  - apply Azure.reaches_nil.
  - reflexivity.
  - vm_compute. reflexivity.
  - reflexivity.
  - vm_compute. reflexivity.
  - vm_compute. reflexivity.
Defined.

Lemma body_raises_exactly_witness :
  Azure.raises 10 [] (Body broken_page)
  <-> unreadable broken_page
      \/ exists fields items,
           broken_page = PDict fields
           /\ Azure.iterate (dict_get fields "Items" (PList [])) = Some items
           /\ Exists bad_item items.
Proof.
  apply (body_raises_exactly 10 (PStr Azure.base_url) [] broken_page). reflexivity.
Defined.

Lemma page_without_items_witness :
  Azure.fetch_loop 10 [Body (PDict [("NextPageLink", PStr "https://next.example/p2")]); Failure]
    (PStr Azure.base_url) []
  = add_requests [PStr Azure.base_url]
      (Azure.after_page 10 [Failure]
         (dict_get [("NextPageLink", PStr "https://next.example/p2")] "NextPageLink" PNone) []).
Proof.
  apply (page_without_items 10 (PStr Azure.base_url) []
           [("NextPageLink", PStr "https://next.example/p2")] [Failure]);
    reflexivity.
Defined.

Lemma first_request_witness :
  (10 <= 0 -> first_page_rows = [] /\ [PStr Azure.base_url; PStr "https://prices.azure.com/api/retail/prices?$skip=100"] = [])
  /\ (0 < 10 -> exists more,
        [PStr Azure.base_url; PStr "https://prices.azure.com/api/retail/prices?$skip=100"]
        = PStr Azure.base_url :: more).
Proof.
  apply (first_request 10 [Body first_page; Failure] first_page_rows
           [PStr Azure.base_url; PStr "https://prices.azure.com/api/retail/prices?$skip=100"]).
  vm_compute. reflexivity.
Defined.

(* ================================================================= *)
(** ** More on the fallback fetcher *)

Section AwsMore.

Import Aws.
Local Open Scope list_scope.

Variable to_double : Z -> pyfloat.
Variable unlabelled : list pyvalue -> option (list (list pyvalue)).

Lemma label_eqb_refl (l : label) : label_eqb l l = true.
Proof. destruct l; simpl; [apply String.eqb_refl | apply Nat.eqb_refl]. Qed.

Lemma has_column_find (df : DataFrame) (name : label) :
  has_column df name = false <-> column df name = None.
Proof.
  unfold has_column, column.
  induction (columns df) as [|c cols IH]; simpl; [tauto|].
  destruct (label_eqb (fst c) name); simpl; [split; discriminate | exact IH].
Qed.

(** After [df[name] = values] the column [name] holds [values]. *)
Lemma column_set_column (df : DataFrame) (name : label) (values : list pyvalue) :
  column (set_column df name values) name = Some values.
Proof.
  unfold set_column, column. simpl.
  destruct (has_column df name) eqn:H.
  - unfold has_column in H.
    induction (columns df) as [|c cols IH]; simpl in *; [discriminate|].
    destruct (label_eqb (fst c) name) eqn:E; simpl.
    + now rewrite E.
    + rewrite E. now apply IH.
  - apply has_column_find in H. unfold column in H.
    induction (columns df) as [|c cols IH]; simpl in *.
    + now rewrite label_eqb_refl.
    + destruct (label_eqb (fst c) name); [discriminate | now apply IH].
Qed.

(** Writing a column that is there keeps the columns where they are. *)
Lemma set_old_column (df : DataFrame) (name : label) (values : list pyvalue) :
  has_column df name = true ->
  column_names (set_column df name values) = column_names df.
Proof.
  intro H. unfold set_column, column_names. simpl. rewrite H.
  rewrite map_map. apply map_ext. intro c.
  now destruct (label_eqb (fst c) name).
Qed.

Lemma column_of_records_none (records : list (list (string * pyvalue))) (k : string) :
  ~ In k (union_keys records) -> column (frame_of_records to_double records) (Name k) = None.
Proof.
  intro H. apply has_column_find. now apply has_column_of_records.
Qed.

Lemma in_keys_dec (k : string) (keys : list string) :
  existsb (String.eqb k) keys = true <-> In k keys.
Proof.
  rewrite existsb_exists. split.
  - intros (x & Hx & E). apply String.eqb_eq in E. now subst.
  - intro H. exists k. split; [exact H | apply String.eqb_refl].
Qed.

Lemma all_dicts_some (items : list pyvalue) records :
  all_dicts items = Some records -> items = List.map PDict records.
Proof.
  revert records; induction items as [|item items IH]; intros records H; simpl in H.
  - now injection H as <-.
  - destruct item as [| | | | | |fields]; try discriminate.
    destruct (all_dicts items) as [rs|]; [|discriminate].
    injection H as <-. simpl. now rewrite (IH rs eq_refl).
Qed.

Lemma pd_DataFrame_rows (v : pyvalue) (df : DataFrame) :
  truthy v = true -> pd_DataFrame to_double unlabelled v = Some df ->
  exists items, v = PList items /\ items <> [] /\ nrows df = List.length items.
Proof.
  intros Ht H. destruct v as [| | | | |items|]; try discriminate.
  destruct items as [|x rest]; [discriminate|].
  exists (x :: rest). split; [reflexivity|]. split; [discriminate|].
  assert (Hother : (cols <- unlabelled (x :: rest) ;;
                    Some {| nrows := List.length (x :: rest); columns := number_columns cols |})
                   = Some df -> nrows df = List.length (x :: rest)).
  { destruct (unlabelled (x :: rest)); [|discriminate]. now intros [= <-]. }
  destruct x as [| | | | | |fields]; try exact (Hother H).
  unfold pd_DataFrame in H.
  destruct (all_dicts (PDict fields :: rest)) as [records|] eqn:Hd; [|discriminate].
  injection H as <-. apply all_dicts_some in Hd. rewrite Hd. simpl.
  now rewrite length_map.
Qed.

Lemma try_url_table (o : outcome) (df : DataFrame) :
  try_url to_double unlabelled o = Some df ->
  exists data items,
    o = Body data /\ normalize data = PList items /\ items <> []
    /\ nrows df = List.length items
    /\ has_column df (Name "CPU Vendor") = true
    /\ Report.empty df = false.
Proof.
  intro H. destruct o as [| |data]; try discriminate. simpl in H.
  destruct (truthy (normalize data)) eqn:Ht; simpl in H; [|discriminate].
  destruct (pd_DataFrame to_double unlabelled (normalize data)) as [df0|] eqn:Hpd; [|discriminate].
  injection H as <-.
  destruct (pd_DataFrame_rows _ _ Ht Hpd) as (items & Hn & Hne & Hrows).
  destruct (add_cpu_vendor_sets df0) as [values Hv].
  assert (Hcol : has_column (add_cpu_vendor df0) (Name "CPU Vendor") = true).
  { destruct (has_column (add_cpu_vendor df0) (Name "CPU Vendor")) eqn:Hc; [reflexivity|].
    apply has_column_find in Hc. rewrite Hv, column_set_column in Hc. discriminate. }
  exists data, items. split; [reflexivity|]. split; [exact Hn|]. split; [exact Hne|].
  assert (Hnrows : nrows (add_cpu_vendor df0) = List.length items)
    by (rewrite Hv; exact Hrows).
  split; [exact Hnrows|]. split; [exact Hcol|].
  unfold Report.empty. rewrite Hnrows.
  destruct items as [|x rest]; [congruence|]. simpl.
  unfold has_column in Hcol. now destruct (columns (add_cpu_vendor df0)).
Qed.

(** A table comes only from a body that is a non-empty collection: it has
    one row per element and the column "CPU Vendor", so it is never empty. *)
Theorem table_is_never_empty (o : outcome) (df : DataFrame) :
  try_url to_double unlabelled o = Some df ->
  exists data items,
    o = Body data /\ normalize data = PList items /\ items <> []
    /\ nrows df = List.length items
    /\ has_column df (Name "CPU Vendor") = true
    /\ Report.empty df = false.
Proof. apply try_url_table. Qed.

Lemma try_urls_asked (us : list string) :
  forall (s : session) df asked,
    try_urls to_double unlabelled us s = Some (df, asked) ->
    exists k, asked = firstn k us /\ (k <= List.length s)%nat
      /\ (k = List.length us /\ df = empty_frame
          \/ exists o, In o (firstn k s) /\ try_url to_double unlabelled o = Some df).
Proof.
  induction us as [|url us IH]; intros s df asked H; simpl in H.
  - injection H as <- <-. exists 0%nat. simpl. split; [reflexivity|].
    split; [lia | now left].
  - destruct s as [|o s]; [discriminate|].
    destruct (try_url to_double unlabelled o) as [df0|] eqn:Ho.
    + injection H as <- <-. exists 1%nat. simpl. split; [reflexivity|].
      split; [lia|]. right. exists o. split; [now left | exact Ho].
    + destruct (try_urls to_double unlabelled us s) as [[d q]|] eqn:Hr; [|discriminate].
      injection H as <- <-.
      destruct (IH _ _ _ Hr) as (k & -> & Hk & Hres).
      exists (S k). simpl. split; [reflexivity|]. split; [lia|].
      destruct Hres as [[-> ->]|(o' & Hin & Ho')]; [now left|].
      right. exists o'. split; [now right | exact Ho'].
Qed.

(** Every URL is asked at most once, in the order of the list, a timeout
    like any failure: the URLs asked are a prefix of the list, and the table
    returned is the empty one after the whole list, or the table of one of
    the outcomes met. *)
Theorem urls_asked_once_in_order (us : list string) (s : session) df asked :
  try_urls to_double unlabelled us s = Some (df, asked) ->
  exists k, asked = firstn k us /\ (k <= List.length s)%nat
    /\ (k = List.length us /\ df = empty_frame
        \/ exists o, In o (firstn k s) /\ try_url to_double unlabelled o = Some df).
Proof. apply try_urls_asked. Qed.

Lemma try_url_records (data : pyvalue) (records : list (list (string * pyvalue))) :
  normalize data = PList (List.map PDict records) ->
  records <> [] ->
  try_url to_double unlabelled (Body data)
  = Some (add_cpu_vendor (frame_of_records to_double records)).
Proof.
  intros Hn Hne. simpl. rewrite Hn. destruct records as [|r records]; [congruence|].
  simpl. now rewrite all_dicts_map.
Qed.

(** The cells of "CPU Vendor" after the column has been filled. *)
Lemma vendor_cells (records : list (list (string * pyvalue))) i r :
  List.nth_error records i = Some r ->
  cell (add_cpu_vendor (frame_of_records to_double records)) "CPU Vendor" i
  = Some (PStr (vendor_name (record_vendor records r))).
Proof.
  intro Hi. unfold cell, add_cpu_vendor, record_vendor, set_column_const.
  destruct (existsb (String.eqb "processor") (union_keys records)) eqn:E1.
  - apply in_keys_dec in E1.
    rewrite (column_of_records to_double _ _ E1), column_set_column, classify_recast.
    unfold classify. now rewrite !nth_error_map, Hi.
  - assert (N1 : ~ In "processor"%string (union_keys records))
      by (rewrite <- in_keys_dec; congruence).
    rewrite (column_of_records_none _ _ N1).
    destruct (existsb (String.eqb "Processor") (union_keys records)) eqn:E2.
    + apply in_keys_dec in E2.
      rewrite (column_of_records to_double _ _ E2), column_set_column, classify_recast.
      unfold classify. now rewrite !nth_error_map, Hi.
    + assert (N2 : ~ In "Processor"%string (union_keys records))
        by (rewrite <- in_keys_dec; congruence).
      rewrite (column_of_records_none _ _ N2), column_set_column. simpl.
      apply nth_error_repeat. apply nth_error_Some. congruence.
Qed.

(** How the column "CPU Vendor" is filled for a table of records: each
    record gets the vendor read from its "processor" when some record has
    that key, else from its "Processor" when some record has that one, else
    Unknown; and a record with neither key gets Unknown in every case. *)
Theorem vendor_column_values (data : pyvalue) (records : list (list (string * pyvalue))) :
  normalize data = PList (List.map PDict records) ->
  records <> [] ->
  exists df,
    try_url to_double unlabelled (Body data) = Some df
    /\ (forall i r, List.nth_error records i = Some r ->
          cell df "CPU Vendor" i = Some (PStr (vendor_name (record_vendor records r))))
    /\ (forall i r, List.nth_error records i = Some r ->
          lacks "processor" r -> lacks "Processor" r ->
          cell df "CPU Vendor" i = Some (PStr "Unknown")).
Proof.
  intros Hn Hne.
  exists (add_cpu_vendor (frame_of_records to_double records)). split; [|split].
  - exact (try_url_records data records Hn Hne).
  - intros i r Hi. exact (vendor_cells records i r Hi).
  - intros i r Hi H1 H2. rewrite (vendor_cells records i r Hi).
    unfold record_vendor, dict_get.
    unfold lacks in H1, H2. rewrite H1, H2.
    destruct (existsb (String.eqb "processor") (union_keys records));
      [reflexivity|].
    destruct (existsb (String.eqb "Processor") (union_keys records)); reflexivity.
Qed.

(** When a record comes with a field "CPU Vendor" of its own, the column is
    written over where it stands: the table has the columns of the records'
    keys and no other, and every cell of "CPU Vendor" holds the vendor the
    classifier gives the record, whatever the record had there. *)
Theorem vendor_column_written_over (data : pyvalue)
    (records : list (list (string * pyvalue))) :
  normalize data = PList (List.map PDict records) ->
  In "CPU Vendor"%string (union_keys records) ->
  exists df,
    try_url to_double unlabelled (Body data) = Some df
    /\ nrows df = List.length records
    /\ column_names df = List.map Name (union_keys records)
    /\ (forall i r, List.nth_error records i = Some r ->
          cell df "CPU Vendor" i = Some (PStr (vendor_name (record_vendor records r)))).
Proof.
  intros Hn Hin.
  assert (Hne : records <> []).
  { intros ->. unfold union_keys in Hin. destruct Hin. }
  assert (Hhas : has_column (frame_of_records to_double records) (Name "CPU Vendor") = true).
  { destruct (has_column (frame_of_records to_double records) (Name "CPU Vendor")) eqn:Hc;
      [reflexivity|].
    apply has_column_find in Hc.
    rewrite (column_of_records to_double _ _ Hin) in Hc. discriminate. }
  destruct (add_cpu_vendor_sets (frame_of_records to_double records)) as [values Hv].
  exists (add_cpu_vendor (frame_of_records to_double records)).
  split; [exact (try_url_records data records Hn Hne)|].
  split; [now rewrite Hv|]. split.
  - rewrite Hv, (set_old_column _ _ values Hhas).
    unfold column_names, frame_of_records. simpl. now rewrite map_map.
  - intros i r Hi. exact (vendor_cells records i r Hi).
Qed.



End AwsMore.

Lemma table_is_never_empty_witness :
  exists data items,
    Body sample_catalog = Body data /\ Aws.normalize data = PList items /\ items <> []
    /\ Aws.nrows (Aws.add_cpu_vendor (Aws.frame_of_records exact_double sample_records))
       = List.length items
    /\ Aws.has_column (Aws.add_cpu_vendor (Aws.frame_of_records exact_double sample_records))
         (Aws.Name "CPU Vendor") = true
    /\ Report.empty (Aws.add_cpu_vendor (Aws.frame_of_records exact_double sample_records)) = false.
Proof.
  apply (table_is_never_empty exact_double (fun _ => None) (Body sample_catalog)). reflexivity.
Defined.

Lemma urls_asked_once_in_order_witness :
  exists k, Aws.urls = firstn k Aws.urls
    /\ (k <= List.length [Timeout; Body sample_catalog; Failure])%nat
    /\ (k = List.length Aws.urls
          /\ Aws.add_cpu_vendor (Aws.frame_of_records exact_double sample_records) = Aws.empty_frame
        \/ exists o, In o (firstn k [Timeout; Body sample_catalog; Failure])
             /\ Aws.try_url exact_double (fun _ => None) o
                = Some (Aws.add_cpu_vendor (Aws.frame_of_records exact_double sample_records))).
Proof.
  apply (urls_asked_once_in_order exact_double (fun _ => None) Aws.urls
           [Timeout; Body sample_catalog; Failure]).
  reflexivity.
Defined.

Lemma vendor_column_values_witness :
  exists df,
    Aws.try_url exact_double (fun _ => None) (Body sample_catalog) = Some df
    /\ (forall i r, List.nth_error sample_records i = Some r ->
          Aws.cell df "CPU Vendor" i
          = Some (PStr (vendor_name (record_vendor sample_records r))))
    /\ (forall i r, List.nth_error sample_records i = Some r ->
          Aws.lacks "processor" r -> Aws.lacks "Processor" r ->
          Aws.cell df "CPU Vendor" i = Some (PStr "Unknown")).
Proof.
  apply (vendor_column_values exact_double (fun _ => None) sample_catalog sample_records).
  - reflexivity.
  - discriminate.
Defined.

Lemma vendor_column_written_over_witness :
  exists df,
    Aws.try_url exact_double (fun _ => None)
      (Body (PList [PDict [("CPU Vendor", PStr "Graviton"); ("processor", PStr "AWS Graviton2")]]))
    = Some df
    /\ Aws.nrows df = 1%nat
    /\ Aws.column_names df
       = List.map Aws.Name
           (Aws.union_keys [[("CPU Vendor", PStr "Graviton"); ("processor", PStr "AWS Graviton2")]])
    /\ (forall i r,
          List.nth_error [[("CPU Vendor", PStr "Graviton"); ("processor", PStr "AWS Graviton2")]] i
          = Some r ->
          Aws.cell df "CPU Vendor" i
          = Some (PStr (vendor_name
                          (record_vendor
                             [[("CPU Vendor", PStr "Graviton"); ("processor", PStr "AWS Graviton2")]]
                             r)))).
Proof.
  apply (vendor_column_written_over exact_double (fun _ => None)
           (PList [PDict [("CPU Vendor", PStr "Graviton"); ("processor", PStr "AWS Graviton2")]])
           [[("CPU Vendor", PStr "Graviton"); ("processor", PStr "AWS Graviton2")]]).
  - reflexivity.
  - vm_compute. now left.
Defined.



(* ================================================================= *)
(** ** The tables handed to main, and what main writes *)

Section MainFacts.

Import Aws Report.
Local Open Scope list_scope.

Variable to_double : Z -> pyfloat.
Variable unlabelled : list pyvalue -> option (list (list pyvalue)).

Lemma add_key_present (k : string) (seen : list string) :
  In k seen -> add_key seen k = seen.
Proof.
  intro H. unfold add_key.
  replace (existsb (String.eqb k) seen) with true; [reflexivity|].
  symmetry. apply existsb_exists. exists k. split; [exact H | apply String.eqb_refl].
Qed.

Lemma add_keys_present (ks seen : list string) :
  (forall k, In k ks -> In k seen) -> fold_left add_key ks seen = seen.
Proof.
  induction ks as [|k ks IH]; intro H; simpl; [reflexivity|].
  rewrite add_key_present by (apply H; now left).
  apply IH. intros k' Hk'. apply H. now right.
Qed.

Lemma row_keys (r : Azure.row) : List.map fst (row_items r) = azure_columns.
Proof. reflexivity. Qed.

Lemma same_keys_add_nothing (rows : list Azure.row) :
  fold_left (fun seen r => fold_left add_key (List.map fst r) seen)
    (List.map row_items rows) azure_columns
  = azure_columns.
Proof.
  induction rows as [|r rows IH]; [reflexivity|].
  cbn [List.map fold_left]. rewrite row_keys, add_keys_present; [exact IH | trivial].
Qed.

Lemma azure_keys (rows : list Azure.row) :
  rows <> [] -> union_keys (List.map row_items rows) = azure_columns.
Proof.
  destruct rows as [|r rows]; [congruence|]. intros _.
  unfold union_keys. cbn [List.map fold_left]. rewrite row_keys.
  change (fold_left add_key azure_columns []) with azure_columns.
  apply same_keys_add_nothing.
Qed.



Lemma azure_empty (rows : list Azure.row) :
  empty (azure_frame to_double rows) = match rows with [] => true | _ => false end.
Proof.
  destruct rows as [|r rows]; [reflexivity|].
  unfold empty, azure_frame, frame_of_records. cbn [nrows columns].
  rewrite (azure_keys (r :: rows)) by discriminate. reflexivity.
Qed.

Lemma coremark_made :
  exists cm, create_sample_coremark_data to_double = Some cm /\ empty cm = false.
Proof. eexists. split; vm_compute; reflexivity. Qed.

Lemma aws_empty (s : session) df asked :
  fetch_aws_instances to_double unlabelled s = Some (df, asked) ->
  empty df = true <-> df = empty_frame.
Proof.
  intro H. split; [|now intros ->].
  destruct (try_urls_asked to_double unlabelled _ _ _ _ H) as (k & _ & _ & [[_ ->]|(o & _ & Ho)]);
    [reflexivity|].
  destruct (try_url_table to_double unlabelled _ _ Ho) as (_ & _ & _ & _ & _ & _ & _ & He).
  congruence.
Qed.

(** Which sheets the workbook gets: "Azure_VMs" when the paginated fetcher
    collected a row, "AWS_VMs" when a URL of the fallback fetcher answered
    with a table, and "CoreMark_Scores" always. *)
Theorem sheets_written (s : session) rows asked aws_df asked' :
  Azure.fetch_azure_vm_pricing 2000 s = Some (rows, asked) ->
  fetch_aws_instances to_double unlabelled (List.skipn (List.length asked) s)
  = Some (aws_df, asked') ->
  exists out,
    main to_double unlabelled true s = Some out
    /\ (In "Azure_VMs"%string (names out) <-> rows <> [])
    /\ (In "AWS_VMs"%string (names out) <-> aws_df <> empty_frame)
    /\ In "CoreMark_Scores"%string (names out).
Proof.
  intros Ha Hw. destruct coremark_made as (cm & Hcm & Hcme).
  pose proof (azure_empty rows) as Haz. pose proof (aws_empty _ _ _ Hw) as Haw.
  unfold main. rewrite Ha, Hw, Hcm. eexists. split; [reflexivity|].
  unfold names, unless_empty. rewrite Hcme.
  destruct (empty (azure_frame to_double rows)), (empty aws_df), rows; simpl;
    try discriminate Haz;
    (split; [|split]);
    try (split; [intro Hin | intro Hne]);
    repeat match goal with
           | H : _ \/ _ |- _ => destruct H
           | H : False |- _ => destruct H
           | H : _ = _ :> string |- _ => discriminate H
           end;
    try (exfalso; apply Hne; tauto);
    try (exfalso; apply Hne; reflexivity);
    try discriminate;
    try tauto;
    try (intro E; apply Haw in E; discriminate E);
    auto.
Qed.

Lemma unless_empty_table (n n' : string) (df : DataFrame) :
  List.map snd (unless_empty n df) = List.map snd (unless_empty n' df).
Proof. unfold unless_empty. now destruct (empty df). Qed.

(** When the workbook cannot be written, the CSV files hold the same
    tables, in the same order, as the sheets would have. *)
Theorem backups_mirror_workbook (s : session) (out : output) :
  main to_double unlabelled true s = Some out ->
  exists out', main to_double unlabelled false s = Some out' /\ tables out' = tables out.
Proof.
  unfold main. intro H.
  destruct (Azure.fetch_azure_vm_pricing 2000 s) as [[rows asked]|]; [|discriminate].
  destruct (fetch_aws_instances to_double unlabelled (skipn (List.length asked) s)) as [[df q]|];
    [|discriminate].
  destruct (create_sample_coremark_data to_double) as [cm|]; [|discriminate].
  injection H as <-. eexists. split; [reflexivity|].
  simpl. rewrite !map_app.
  now rewrite (unless_empty_table "azure_vms.csv" "Azure_VMs"),
    (unless_empty_table "aws_vms.csv" "AWS_VMs"),
    (unless_empty_table "coremark_scores.csv" "CoreMark_Scores").
Qed.

(** No failure of a source stops the run: when the first request of the
    paginated fetcher raises and both URLs of the fallback fetcher fail or
    are empty, main still writes its output, the CoreMark table alone. *)
Theorem outage_leaves_coremark (excel_ok : bool) (o a1 a2 : outcome) (rest : session) :
  Azure.raises 2000 [] o ->
  fails_or_empty a1 -> fails_or_empty a2 ->
  exists cm,
    create_sample_coremark_data to_double = Some cm
    /\ main to_double unlabelled excel_ok (o :: a1 :: a2 :: rest)
       = Some (if excel_ok
               then Workbook "cloud_vm_benchmarks.xlsx" [("CoreMark_Scores"%string, cm)]
               else Backups [("coremark_scores.csv"%string, cm)]).
Proof.
  intros Ho H1 H2. destruct coremark_made as (cm & Hcm & Hcme).
  exists cm. split; [exact Hcm|]. unfold main, Azure.fetch_azure_vm_pricing.
  rewrite (fetch_loop_raises 2000 (PStr Azure.base_url) [] o (a1 :: a2 :: rest) eq_refl Ho).
  cbn [List.length skipn]. unfold fetch_aws_instances, urls. cbn [try_urls].
  rewrite (try_url_fails to_double unlabelled a1 H1), (try_url_fails to_double unlabelled a2 H2).
  cbn [requested]. rewrite Hcm. unfold unless_empty. rewrite Hcme.
  now destruct excel_ok.
Qed.

End MainFacts.


Example exact_double_text :
  List.map (fun n => Py.str (PFloat (exact_double n))) [0; 1; 4; -25; 100; 2000]
  = ["0.0"; "1.0"; "4.0"; "-25.0"; "100.0"; "2000.0"]%string.
Proof. vm_compute. reflexivity. Qed.

(** How pandas types a column, on examples: integers stay, integers beside
    a float or a missing entry become floats, None beside numbers becomes
    NaN, and a column with a text or a boolean is left as it is. *)
Example recast_examples :
  Aws.recast exact_double [PInt 1; PInt 2] = [PInt 1; PInt 2]
  /\ Aws.recast exact_double [PInt 1; Aws.NaN]
     = [PFloat (FDec false (D1 Nil) 1); Aws.NaN]
  /\ Aws.recast exact_double [PNone; PInt 4]
     = [Aws.NaN; PFloat (FDec false (D4 Nil) 1)]
  /\ Aws.recast exact_double [PNone; PNone] = [PNone; PNone]
  /\ Aws.recast exact_double [PNone; PStr "a"; PInt 1] = [PNone; PStr "a"; PInt 1]
  /\ Aws.recast exact_double [PBool true; Aws.NaN] = [PBool true; Aws.NaN].
Proof. repeat split. Qed.

(** The prices None and 4 of the two rows stand in the table as NaN and
    4.0. *)
Example unit_price_column :
  Aws.column (Report.azure_frame exact_double first_page_rows) (Aws.Name "Unit Price (USD)")
  = Some [Aws.NaN; PFloat (FDec false (D4 Nil) 1)].
Proof. vm_compute. reflexivity. Qed.

Lemma sheets_written_witness :
  exists out,
    Report.main exact_double (fun _ => None) true [Body first_page; Failure; Failure; Body sample_catalog]
    = Some out
    /\ (In "Azure_VMs"%string (Report.names out) <-> first_page_rows <> [])
    /\ (In "AWS_VMs"%string (Report.names out)
        <-> Aws.add_cpu_vendor (Aws.frame_of_records exact_double sample_records) <> Aws.empty_frame)
    /\ In "CoreMark_Scores"%string (Report.names out).
Proof.
  apply (sheets_written exact_double (fun _ => None)
           [Body first_page; Failure; Failure; Body sample_catalog]
           first_page_rows
           [PStr Azure.base_url; PStr "https://prices.azure.com/api/retail/prices?$skip=100"]
           (Aws.add_cpu_vendor (Aws.frame_of_records exact_double sample_records)) Aws.urls).
  - vm_compute. reflexivity.
  - vm_compute. reflexivity.
Defined.

Lemma backups_mirror_workbook_witness :
  exists out',
    Report.main exact_double (fun _ => None) false [Body first_page; Failure; Failure; Body sample_catalog]
    = Some out'
    /\ Report.tables out'
       = Report.tables
           (match Report.main exact_double (fun _ => None) true
                    [Body first_page; Failure; Failure; Body sample_catalog] with
            | Some out => out
            | None => Report.Backups []
            end).
Proof.
  apply (backups_mirror_workbook exact_double (fun _ => None)
           [Body first_page; Failure; Failure; Body sample_catalog]).
  vm_compute. reflexivity.
Defined.

Lemma outage_leaves_coremark_witness :
  exists cm,
    Report.create_sample_coremark_data exact_double = Some cm
    /\ Report.main exact_double (fun _ => None) false [Failure; Timeout; Body (PList [])]
       = Some (Report.Backups [("coremark_scores.csv"%string, cm)]).
Proof.
  apply (outage_leaves_coremark exact_double (fun _ => None) false Failure Timeout (Body (PList [])) []).
  - exact I.
  - exact I.
  - reflexivity.
Defined.
